(** * WiGLE fetch scripts: a shallow embedding and its properties

The repository holds four download scripts (bluetooth.py,
BluetoothCellularWiFi.py, wifi.py, wigle.py) and one converter
(Cellular-csvtokml.py).  Each download script asks the WiGLE search
API for pages of observations and writes them to a CSV file.

Modelling choices, shared by the whole development:
- a Python [str] is a Rocq [string]; a character is a code point
  below 256;
- the remote server is a script: the list of the outcomes of the
  successive calls of [requests.get].  The scripts are deterministic,
  so every behaviour of a server is covered by some list;
- the effects of a session ([requests.get], [time.sleep], [print],
  [to_csv]) are recorded, in order, in a log carried by the state;
- a text file is the list of its CSV rows, each row the list of its
  fields; module [csv] gives the characters that are written for
  a row and reads them back;
- the file system is a finite map from paths to files. *)

From Stdlib Require Import ZArith Lia Ascii String List Bool.
From stdpp Require Import base option list strings gmap.

Local Open Scope Z_scope.
Local Open Scope nat_scope.

(** ** Python built-ins used by the scripts *)

Module Py.

(** [str.isspace] on one character (code points below 256). *)
Definition isspace (c : ascii) : bool :=
  let n := nat_of_ascii c in
  ((9 <=? n) && (n <=? 13)) || ((28 <=? n) && (n <=? 32))
  || (n =? 133) || (n =? 160).

Fixpoint lstrip (s : string) : string :=
  match s with
  | String c s' => if isspace c then lstrip s' else s
  | EmptyString => EmptyString
  end.

(** [str.rstrip()], through the reversed string. *)
Definition rstrip (s : string) : string :=
  String.rev (lstrip (String.rev s)).

(** [str.strip()] *)
Definition strip (s : string) : string := rstrip (lstrip s).

Definition is_ascii_digit (c : ascii) : bool :=
  let n := nat_of_ascii c in (48 <=? n) && (n <=? 57).

Definition is_ascii_alpha (c : ascii) : bool :=
  let n := nat_of_ascii c in
  ((65 <=? n) && (n <=? 90)) || ((97 <=? n) && (n <=? 122)).

(** Decimal digits, for [strftime] and f-strings. *)
Definition digit (n : nat) : ascii := ascii_of_nat (48 + n mod 10).

Definition pad2 (n : nat) : string :=
  String (digit (n / 10)) (String (digit n) EmptyString).

Definition pad4 (n : nat) : string :=
  String (digit (n / 1000)) (String (digit (n / 100)) (pad2 n)).

(** [datetime.datetime]: the fields that [strftime] reads, and the
    microseconds, which the format of the scripts drops. *)
Record datetime := {
  year : nat; month : nat; day : nat;
  hour : nat; minute : nat; second : nat;
  microsecond : nat }.

(** A value that [datetime.datetime.now()] can return. *)
Definition valid (t : datetime) : Prop :=
  1000 <= year t < 100 * 100 /\ 1 <= month t <= 12 /\ 1 <= day t <= 31 /\
  hour t < 24 /\ minute t < 60 /\ second t < 60.

(** [t.strftime("%Y%m%d_%H%M%S")] *)
Definition strftime (t : datetime) : string :=
  pad4 (year t) +:+ pad2 (month t) +:+ pad2 (day t) +:+ "_" +:+
  pad2 (hour t) +:+ pad2 (minute t) +:+ pad2 (second t).

End Py.

(** ** bluetooth.py: the token prompt *)

Module Token.
Section Token.

(** The table of the non-ASCII characters that [\w] matches belongs to
    Python's Unicode database; it is a parameter here. *)
Variable unicode_alnum : ascii -> bool.

(** One character of the class [[\w\-_=]]. *)
Definition token_char (c : ascii) : bool :=
  let n := nat_of_ascii c in
  (if n <? 128 then Py.is_ascii_alpha c || Py.is_ascii_digit c || (n =? 95)
   else unicode_alnum c)
  || (n =? 45) || (n =? 95) || (n =? 61).

(** [is_valid_token]: [re.fullmatch(r"[\w\-_=]*", token)] *)
Fixpoint is_valid_token (token : string) : bool :=
  match token with
  | EmptyString => true
  | String c rest => token_char c && is_valid_token rest
  end.

(** [get_input]: the lines typed by the user are a list; [None] is the
    [EOFError] of [input] when the list is over.  The result carries
    the lines left unread and the number of times "Invalid input" was
    printed. *)
Fixpoint get_input (validation_func : string -> bool) (stdin : list string)
  : option (string * list string * nat) :=
  match stdin with
  | [] => None
  | l :: stdin' =>
      let value := Py.strip l in
      if validation_func value then Some (value, stdin', 0)
      else match get_input validation_func stdin' with
           | Some (v, rest, k) => Some (v, rest, S k)
           | None => None
           end
  end.

(** [get_token]: the headers dictionary built from the accepted token. *)
Definition get_token (stdin : list string)
  : option (gmap string string * list string * nat) :=
  match get_input is_valid_token stdin with
  | Some (token, rest, k) =>
      Some ({[ "Authorization" := "Basic " +:+ token ]}, rest, k)
  | None => None
  end.

End Token.

End Token.

(** ** The csv module of Python, as the scripts call it

    [to_csv] of pandas writes through [csv.writer]; Cellular-csvtokml.py
    reads through [csv.DictReader].  The functions below follow the writer
    and the reader of CPython 3.10 and later ([join_append_data],
    [parse_process_char], [Reader_iternext] of Modules/_csv.c), for the
    settings that the scripts pass. *)

Module csv.

Definition delimiter : ascii := ","%char.
Definition quotechar : ascii := ascii_of_nat 34.
Definition LF : ascii := ascii_of_nat 10.
Definition CR : ascii := ascii_of_nat 13.
Definition lineterminator : string := String LF EmptyString.

Definition eqc (a b : ascii) : bool := Ascii.eqb a b.

(** *** Writer

    [to_csv] builds [csv.writer] with the comma as delimiter, the double
    quote as quote character, [doublequote=True], [QUOTE_MINIMAL], the
    line terminator of Linux and the escape character that the script
    passes. *)
Section Writer.

Variable escapechar : ascii.

(** The loop of [join_append_data] over the characters of a field:
    the characters copied, and whether the field has to be quoted. *)
Fixpoint join_append_data (field : string) : string * bool :=
  match field with
  | EmptyString => (EmptyString, false)
  | String c rest =>
      let '(out, quoted) := join_append_data rest in
      if eqc c delimiter || eqc c escapechar || eqc c quotechar || eqc c LF
      then
        if eqc c quotechar then (String quotechar (String c out), true)
        else if eqc c escapechar then (String escapechar (String c out), quoted)
        else (String c out, true)
      else (String c out, quoted)
  end.

(** One field, between its quotes if it needs them. *)
Definition join_append (field : string) : string :=
  let '(out, quoted) := join_append_data field in
  if quoted then String quotechar (out +:+ String quotechar EmptyString)
  else out.

Fixpoint join_fields (fields : list string) : string :=
  match fields with
  | [] => EmptyString
  | [x] => join_append x
  | x :: rest => join_append x +:+ String delimiter (join_fields rest)
  end.

(** [writer.writerow]: a record of one empty field is written as two
    quotes, so that it is not read as an empty line. *)
Definition writerow (row : list string) : string :=
  let rec := join_fields row in
  (if (0 <? length row) && (String.length rec =? 0)
   then String quotechar (String quotechar EmptyString) else rec)
  +:+ lineterminator.

(** [writer.writerows] *)
Definition writerows (rows : list (list string)) : string :=
  foldr (fun row text => writerow row +:+ text) EmptyString rows.

End Writer.

(** *** Reading a text file

    [open(csv_file, 'r')] translates every line ending to a line feed, and
    iterating over the file yields its lines, each with its line feed. *)
Fixpoint universal_newlines (text : string) : string :=
  match text with
  | EmptyString => EmptyString
  | String c rest =>
      if eqc c CR then
        match rest with
        | String c' rest' =>
            if eqc c' LF then String LF (universal_newlines rest')
            else String LF (universal_newlines rest)
        | EmptyString => String LF EmptyString
        end
      else String c (universal_newlines rest)
  end.

(** [splitlines_go cur text]: [cur] holds the current line, reversed. *)
Fixpoint splitlines_go (cur : string) (text : string) : list string :=
  match text with
  | EmptyString =>
      match cur with EmptyString => [] | _ => [String.rev cur] end
  | String c rest =>
      if eqc c LF then String.rev (String c cur) :: splitlines_go EmptyString rest
      else splitlines_go (String c cur) rest
  end.

Definition readlines (text : string) : list string :=
  splitlines_go EmptyString (universal_newlines text).

(** *** Reader

    [csv.reader] with the default dialect: comma, double quote,
    [doublequote=True], no escape character, not strict. *)
Inductive ParserState :=
| START_RECORD | START_FIELD | IN_FIELD | IN_QUOTED_FIELD
| QUOTE_IN_QUOTED_FIELD | EAT_CRNL.

(** [field] holds the characters of the current field, last one first;
    [fields] the fields of the current record, last one first. *)
Record ReaderObj := {
  state : ParserState;
  field : string;
  fields : list string }.

Definition parse_reset : ReaderObj :=
  {| state := START_RECORD; field := EmptyString; fields := [] |}.

Definition set_state (s : ParserState) (r : ReaderObj) : ReaderObj :=
  {| state := s; field := field r; fields := fields r |}.

Definition parse_save_field (r : ReaderObj) : ReaderObj :=
  {| state := state r; field := EmptyString;
     fields := String.rev (field r) :: fields r |}.

Definition parse_add_char (c : ascii) (r : ReaderObj) : ReaderObj :=
  {| state := state r; field := String c (field r); fields := fields r |}.

Definition is_crnl (c : ascii) : bool := eqc c LF || eqc c CR.

(** The case [START_FIELD] of [parse_process_char]; [None] as character
    is the end-of-line mark that the reader feeds after each line. *)
Definition start_field (r : ReaderObj) (c : option ascii) : ReaderObj :=
  match c with
  | None => set_state START_RECORD (parse_save_field r)
  | Some c =>
      if is_crnl c then set_state EAT_CRNL (parse_save_field r)
      else if eqc c quotechar then set_state IN_QUOTED_FIELD r
      else if eqc c delimiter then parse_save_field r
      else set_state IN_FIELD (parse_add_char c r)
  end.

(** [parse_process_char]; [None] as result is [csv.Error]. *)
Definition parse_process_char (r : ReaderObj) (c : option ascii)
  : option ReaderObj :=
  match state r with
  | START_RECORD =>
      match c with
      | None => Some r
      | Some c' =>
          if is_crnl c' then Some (set_state EAT_CRNL r)
          else Some (start_field (set_state START_FIELD r) c)
      end
  | START_FIELD => Some (start_field r c)
  | IN_FIELD =>
      match c with
      | None => Some (set_state START_RECORD (parse_save_field r))
      | Some c =>
          if is_crnl c then Some (set_state EAT_CRNL (parse_save_field r))
          else if eqc c delimiter
               then Some (set_state START_FIELD (parse_save_field r))
          else Some (parse_add_char c r)
      end
  | IN_QUOTED_FIELD =>
      match c with
      | None => Some r
      | Some c =>
          if eqc c quotechar then Some (set_state QUOTE_IN_QUOTED_FIELD r)
          else Some (parse_add_char c r)
      end
  | QUOTE_IN_QUOTED_FIELD =>
      match c with
      | None => Some (set_state START_RECORD (parse_save_field r))
      | Some c =>
          if eqc c quotechar
          then Some (set_state IN_QUOTED_FIELD (parse_add_char c r))
          else if eqc c delimiter
               then Some (set_state START_FIELD (parse_save_field r))
          else if is_crnl c then Some (set_state EAT_CRNL (parse_save_field r))
          else Some (set_state IN_FIELD (parse_add_char c r))
      end
  | EAT_CRNL =>
      match c with
      | None => Some (set_state START_RECORD r)
      | Some c => if is_crnl c then Some r else None
      end
  end.

(** One line: its characters, then the end-of-line mark. *)
Fixpoint parse_line (r : ReaderObj) (line : string) : option ReaderObj :=
  match line with
  | EmptyString => parse_process_char r None
  | String c rest =>
      match parse_process_char r (Some c) with
      | Some r' => parse_line r' rest
      | None => None
      end
  end.

Definition at_start_record (r : ReaderObj) : bool :=
  match state r with START_RECORD => true | _ => false end.

Definition in_quoted_field (r : ReaderObj) : bool :=
  match state r with IN_QUOTED_FIELD => true | _ => false end.

(** Iterating over the reader: [Reader_iternext] called until the lines
    are over.  A record ends when a line leaves the parser in
    [START_RECORD]; at the end of the input an open field is saved. *)
Fixpoint reader_go (r : ReaderObj) (lines : list string)
  : option (list (list string)) :=
  match lines with
  | [] =>
      if negb (String.length (field r) =? 0) || in_quoted_field r
      then Some [rev (fields (parse_save_field r))]
      else Some []
  | l :: lines' =>
      match parse_line r l with
      | None => None
      | Some r' =>
          if at_start_record r' then
            match reader_go parse_reset lines' with
            | Some rows => Some (rev (fields r') :: rows)
            | None => None
            end
          else reader_go r' lines'
      end
  end.

Definition reader (lines : list string) : option (list (list string)) :=
  reader_go parse_reset lines.

(** *** DictReader

    The first record gives the field names; empty records are skipped; a
    short record leaves its last keys at [None], the long end of a long
    record goes under the key [None], which no script reads. *)
Fixpoint zip_row (fieldnames : list string) (row : list string)
  : gmap string (option string) :=
  match fieldnames, row with
  | k :: ks, v :: vs => <[k := Some v]> (zip_row ks vs)
  | k :: ks, [] => <[k := None]> (zip_row ks [])
  | [], _ => ∅
  end.

Definition is_empty_row (row : list string) : bool :=
  match row with [] => true | _ => false end.

Definition DictReader (lines : list string)
  : option (list (gmap string (option string))) :=
  match reader lines with
  | None => None
  | Some [] => Some []
  | Some (fieldnames :: rows) =>
      Some (map (zip_row fieldnames)
                (filter (fun row => is_empty_row row = false) rows))
  end.

End csv.

(** ** pandas, as the scripts call it *)

Module pd.

(** One search result: the keys of the JSON object in their order, each
    with the text that [to_csv] writes for its value. *)
Definition record := list (string * string).

Record DataFrame := {
  columns : list string;
  values : list (list string) }.

Definition known (cols : list string) (k : string) : bool :=
  bool_decide (k ∈ cols).

(** The keys of a record that are not columns yet, in their order. *)
Fixpoint add_keys (cols : list string) (keys : list string) : list string :=
  match keys with
  | [] => cols
  | k :: keys' =>
      if known cols k then add_keys cols keys'
      else add_keys (cols ++ [k]) keys'
  end.

Fixpoint get (r : record) (k : string) : option string :=
  match r with
  | [] => None
  | (k', v) :: r' => if bool_decide (k = k') then Some v else get r' k
  end.

(** A key that a record lacks gives NaN, which is written as the empty
    string. *)
Definition cell (r : record) (k : string) : string :=
  default EmptyString (get r k).

(** [pd.DataFrame(results)]: the columns are the keys in the order of
    their first appearance. *)
Definition DataFrame_of (results : list record) : DataFrame :=
  let cols := foldl (fun cols r => add_keys cols (map fst r)) [] results in
  {| columns := cols; values := map (fun r => map (cell r) cols) results |}.

(** The rows that [df.to_csv(..., index=False, header=header)] writes. *)
Definition to_csv (df : DataFrame) (header : bool) : list (list string) :=
  (if header then [columns df] else []) ++ values df.

End pd.

(** A text file: its rows.  [render] gives its characters, as written by
    [to_csv] with [escapechar] set to the backslash. *)
Definition file := list (list string).

Definition backslash : ascii := ascii_of_nat 92.

Definition render (f : file) : string := csv.writerows backslash f.

(** [f.tell()] at the end of the file. *)
Definition tell (f : file) : nat := String.length (render f).

(** ** requests, as the scripts call it *)

Module requests.

(** The exceptions of [requests.get] that the scripts tell apart.
    [ConnectTimeout] is a subclass of both [Timeout] and
    [ConnectionError]; [ReadTimeout] of [Timeout] only. *)
Inductive exception :=
| ReadTimeout | ConnectTimeout | TooManyRedirects | ConnectionError
| OtherException.

Definition is_Timeout (e : exception) : bool :=
  match e with ReadTimeout | ConnectTimeout => true | _ => false end.

Definition is_ConnectionError (e : exception) : bool :=
  match e with ConnectionError | ConnectTimeout => true | _ => false end.

Definition is_TooManyRedirects (e : exception) : bool :=
  match e with TooManyRedirects => true | _ => false end.

(** The body of a response, decoded: [results] is a list of objects and
    [totalResults] an integer; a key that is absent is [None]. *)
Record json := {
  results : option (list pd.record);
  totalResults : option Z }.

(** What one call of [requests.get] does: it returns a response, whose
    body may fail to decode ([None]), or it raises. *)
Inductive outcome :=
| Response (status_code : Z) (body : option json)
| Raise (e : exception).

End requests.

Import requests.

(** ** Effects and exits of a session *)

Inductive message :=
| Retrieving
| Retrieved (current_count : nat) (total_count : Z)
| UnauthorizedMsg
| TooManyRequestsSaving
| TooManyRequestsWaiting
| ErrorStatus (status_code : Z)
| TimedOutRetrying
| TooManyRedirectsMsg
| ConnectionErrorRetrying
| AnErrorOccurred
| AllRetrieved (current_count : nat)
| NoResults
| Table (df : pd.DataFrame).

Inductive event :=
| Get (start : option nat)
| Sleep (seconds : nat)
| Print (m : message)
| ToCsv (results : list pd.record) (header : bool).

(** The place where a session leaves its loop. *)
Inductive exit :=
| Completed                    (* current_count >= total_count *)
| Unauthorized                 (* status 401 *)
| RateLimited                  (* status 429 *)
| HttpError (status_code : Z)  (* any other status *)
| Redirects                    (* TooManyRedirects *)
| Failed                       (* except Exception *)
| Exhausted                    (* the while condition is false *)
| Saved.                       (* wigle.py: the page is written *)

(** ** bluetooth.py *)

Module Bluetooth.

Definition REQUEST_DELAY : nat := 5.
Definition MAX_RETRIES : nat := 3.

(** The variables of [send_request] that the loop changes, the content of
    the open file and the log of the effects. *)
Record state := {
  current_count : nat;
  total_count : option Z;
  retries : nat;
  start : option nat;          (* query_params.get("start") *)
  f : file;
  log : list event }.

Definition emit (e : event) (st : state) : state :=
  {| current_count := current_count st; total_count := total_count st;
     retries := retries st; start := start st; f := f st;
     log := log st ++ [e] |}.

Definition add_count (n : nat) (st : state) : state :=
  {| current_count := current_count st + n; total_count := total_count st;
     retries := retries st; start := start st; f := f st; log := log st |}.

Definition set_total (t : Z) (st : state) : state :=
  {| current_count := current_count st; total_count := Some t;
     retries := retries st; start := start st; f := f st; log := log st |}.

Definition add_retry (st : state) : state :=
  {| current_count := current_count st; total_count := total_count st;
     retries := retries st + 1; start := start st; f := f st;
     log := log st |}.

Definition set_start (st : state) : state :=
  {| current_count := current_count st; total_count := total_count st;
     retries := retries st; start := Some (current_count st); f := f st;
     log := log st |}.

(** [df.to_csv(f, index=False, header=f.tell() == 0, escapechar="\\")] *)
Definition write (results : list pd.record) (st : state) : state :=
  let header := tell (f st) =? 0 in
  {| current_count := current_count st; total_count := total_count st;
     retries := retries st; start := start st;
     f := f st ++ pd.to_csv (pd.DataFrame_of results) header;
     log := log st ++ [ToCsv results header] |}.

Inductive step :=
| Continue (st : state)
| Break (why : exit) (st : state).

(** The branch [status_code == 200], lines 149-165. *)
Definition on_success (body : option json) (st : state) : step :=
  match body with
  | None => Break Failed (emit (Print AnErrorOccurred) st)
  | Some data =>
      match results data with
      | None => Break Failed (emit (Print AnErrorOccurred) st)
      | Some results =>
          let st := add_count (length results) st in
          let total :=
            match total_count st with
            | None => totalResults data
            | Some t => Some t
            end in
          match total with
          | None => Break Failed (emit (Print AnErrorOccurred) st)
          | Some t =>
              let st := set_total t st in
              let st := emit (Print (Retrieved (current_count st) t)) st in
              let st := write results st in
              if (t <=? Z.of_nat (current_count st))%Z then Break Completed st
              else Continue (emit (Sleep REQUEST_DELAY) (set_start st))
          end
      end
  end.

(** The body of the while loop, lines 144-195, after [requests.get]. *)
Definition iteration (st : state) (o : outcome) : step :=
  match o with
  | Response status_code body =>
      if (status_code =? 200)%Z then on_success body st
      else if (status_code =? 401)%Z
           then Break Unauthorized (emit (Print UnauthorizedMsg) st)
      else if (status_code =? 429)%Z
           then Break RateLimited (emit (Print TooManyRequestsSaving) st)
      else Break (HttpError status_code)
                 (emit (Print (ErrorStatus status_code)) st)
  | Raise e =>
      if is_Timeout e
      then Continue (emit (Sleep REQUEST_DELAY)
                       (add_retry (emit (Print TimedOutRetrying) st)))
      else if is_TooManyRedirects e
           then Break Redirects (emit (Print TooManyRedirectsMsg) st)
      else if is_ConnectionError e
           then Continue (emit (Sleep REQUEST_DELAY)
                            (add_retry (emit (Print ConnectionErrorRetrying) st)))
      else Break Failed (emit (Print AnErrorOccurred) st)
  end.

(** A session is over ([Returned]) or its last request is not answered
    yet ([Waiting]). *)
Inductive run :=
| Returned (why : exit) (st : state)
| Waiting (st : state).

Definition state_of (r : run) : state :=
  match r with Returned _ st => st | Waiting st => st end.

(** [while retries < MAX_RETRIES], lines 143-195. *)
Fixpoint loop (server : list outcome) (st : state) : run :=
  if retries st <? MAX_RETRIES then
    let st := emit (Get (start st)) st in
    match server with
    | [] => Waiting st
    | o :: server' =>
        match iteration st o with
        | Continue st' => loop server' st'
        | Break why st' => Returned why st'
        end
    end
  else Returned Exhausted st.

(** Line 197, after the loop. *)
Definition finish (r : run) : run :=
  match r with
  | Returned why st =>
      Returned why (emit (Print (AllRetrieved (current_count st))) st)
  | Waiting st => Waiting st
  end.

(** The state at line 140, [f] being the content of the file just
    opened. *)
Definition init (f0 : file) : state :=
  {| current_count := 0; total_count := None; retries := 0; start := None;
     f := f0; log := [Print Retrieving] |}.

Section Session.

(** Coordinates are floats; [str_float] is the text of a float in an
    f-string. *)
Context {float : Type} (str_float : float -> string).

(** Lines 125-126. *)
Definition filename (latrange1 longrange1 : float) (now : Py.datetime)
  : string :=
  "tests/" +:+ str_float latrange1 +:+ "_" +:+ str_float longrange1
    +:+ "_" +:+ Py.strftime now +:+ ".csv".

(** [send_request]: [now] is the clock at line 125, [fs] the files
    before the session, [server] the answers of the API.  The file is
    opened for appending: an absent file starts empty.  The headers and
    the upper bounds only travel in the request. *)
Definition send_request (now : Py.datetime) (fs : gmap string file)
    (server : list outcome) (latrange1 latrange2 longrange1 longrange2 : float)
  : run * gmap string file :=
  let name := filename latrange1 longrange1 now in
  let r := finish (loop server (init (default [] (fs !! name)))) in
  (r, <[name := f (state_of r)]> fs).

End Session.

End Bluetooth.

(** ** BluetoothCellularWiFi.py *)

Module BluetoothCellularWiFi.

Definition REQUEST_DELAY : nat := Bluetooth.REQUEST_DELAY.
Definition MAX_RETRIES : nat := Bluetooth.MAX_RETRIES.

Definition api_endpoints : list string :=
  ["bluetooth/search"; "cell/search"; "network/search"].

(** [l[i]] of Python: a negative index counts from the end, [None] is
    [IndexError]. *)
Definition index {A} (l : list A) (i : Z) : option A :=
  if (0 <=? i)%Z then l !! Z.to_nat i
  else if (- Z.of_nat (length l) <=? i)%Z
       then l !! Z.to_nat (Z.of_nat (length l) + i)
  else None.

(** [s.split('/')[0]] *)
Fixpoint before_slash (s : string) : string :=
  match s with
  | EmptyString => EmptyString
  | String c rest =>
      if Ascii.eqb c "/"%char then EmptyString else String c (before_slash rest)
  end.

(** Lines 54-55. *)
Definition filename (api_endpoint : string) (now : Py.datetime) : string :=
  "output/" +:+ before_slash api_endpoint +:+ "_" +:+ Py.strftime now
    +:+ ".csv".

(** Lines 74-126 are the loop of bluetooth.py, lines 143-195, word for
    word but for the text of two messages. *)
Definition loop := Bluetooth.loop.

(** [send_request]; [only_mine] and [last_updated] only travel in the
    request. *)
Definition send_request (now : Py.datetime) (fs : gmap string file)
    (server : list outcome) (api_type : Z)
  : option (Bluetooth.run * gmap string file) :=
  match index api_endpoints api_type with
  | None => None
  | Some api_endpoint =>
      let name := filename api_endpoint now in
      let r := Bluetooth.finish
                 (loop server (Bluetooth.init (default [] (fs !! name)))) in
      Some (r, <[name := Bluetooth.f (Bluetooth.state_of r)]> fs)
  end.

End BluetoothCellularWiFi.

(** ** wifi.py *)

Module Wifi.

(** The variables of [send_request] that the loop changes, and the log. *)
Record state := {
  total_results : list pd.record;
  current_count : nat;
  total_count : option Z;
  retries : nat;
  start : option nat;
  log : list event }.

Definition emit (e : event) (st : state) : state :=
  {| total_results := total_results st; current_count := current_count st;
     total_count := total_count st; retries := retries st;
     start := start st; log := log st ++ [e] |}.

(** Lines 66-67. *)
Definition extend (results : list pd.record) (st : state) : state :=
  {| total_results := total_results st ++ results;
     current_count := current_count st + length results;
     total_count := total_count st; retries := retries st;
     start := start st; log := log st |}.

Definition set_total (t : Z) (st : state) : state :=
  {| total_results := total_results st; current_count := current_count st;
     total_count := Some t; retries := retries st; start := start st;
     log := log st |}.

Definition add_retry (st : state) : state :=
  {| total_results := total_results st; current_count := current_count st;
     total_count := total_count st; retries := retries st + 1;
     start := start st; log := log st |}.

Definition set_start (st : state) : state :=
  {| total_results := total_results st; current_count := current_count st;
     total_count := total_count st; retries := retries st;
     start := Some (current_count st); log := log st |}.

(** [Break] leaves the loop for the saving of line 102; [Return] leaves the
    function. *)
Inductive step :=
| Continue (st : state)
| Break (why : exit) (st : state)
| Return (why : exit) (st : state).

Section Loop.

Variables request_delay max_retries : nat.

(** The branch [status_code == 200], lines 64-78. *)
Definition on_success (body : option json) (st : state) : step :=
  match body with
  | None => Return Failed (emit (Print AnErrorOccurred) st)
  | Some data =>
      match results data with
      | None => Return Failed (emit (Print AnErrorOccurred) st)
      | Some results =>
          let st := extend results st in
          let total :=
            match total_count st with
            | None => totalResults data
            | Some t => Some t
            end in
          match total with
          | None => Return Failed (emit (Print AnErrorOccurred) st)
          | Some t =>
              let st := set_total t st in
              let st := emit (Print (Retrieved (current_count st) t)) st in
              if (t <=? Z.of_nat (current_count st))%Z then Break Completed st
              else Continue (emit (Sleep request_delay) (set_start st))
          end
      end
  end.

(** The body of the while loop, lines 59-99, after [requests.get]. *)
Definition iteration (st : state) (o : outcome) : step :=
  match o with
  | Response status_code body =>
      if (status_code =? 200)%Z then on_success body st
      else if (status_code =? 401)%Z
           then Return Unauthorized (emit (Print UnauthorizedMsg) st)
      else if (status_code =? 429)%Z
           then Break RateLimited (emit (Print TooManyRequestsSaving) st)
      else Return (HttpError status_code)
                  (emit (Print (ErrorStatus status_code)) st)
  | Raise e =>
      if is_ConnectionError e
      then Continue (emit (Sleep request_delay)
                       (add_retry (emit (Print ConnectionErrorRetrying) st)))
      else Return Failed (emit (Print AnErrorOccurred) st)
  end.

Inductive run :=
| Left (why : exit) (st : state)       (* the loop is left for line 102 *)
| Returned (why : exit) (st : state)   (* a return inside the loop *)
| Waiting (st : state).

(** [while retries < max_retries], lines 58-99. *)
Fixpoint loop (server : list outcome) (st : state) : run :=
  if retries st <? max_retries then
    let st := emit (Get (start st)) st in
    match server with
    | [] => Waiting st
    | o :: server' =>
        match iteration st o with
        | Continue st' => loop server' st'
        | Break why st' => Left why st'
        | Return why st' => Returned why st'
        end
    end
  else Left Exhausted st.

End Loop.

(** The state at line 56. *)
Definition init : state :=
  {| total_results := []; current_count := 0; total_count := None;
     retries := 0; start := None; log := [Print Retrieving] |}.

Definition is_empty {A} (l : list A) : bool :=
  match l with [] => true | _ => false end.

Section Session.

Context {float : Type} (str_float : float -> string).

(** Line 105. *)
Definition filename (location : string) (latrange1 longrange1 : float)
    (now : Py.datetime) : string :=
  "tests/" +:+ location +:+ "_" +:+ str_float latrange1 +:+ "_"
    +:+ str_float longrange1 +:+ "_" +:+ Py.strftime now +:+ ".csv".

(** Lines 102-119: the results are written in one piece, in append
    mode, with a header when the file does not exist yet. *)
Definition save (now : Py.datetime) (fs : gmap string file)
    (location : string) (latrange1 longrange1 : float) (st : state)
  : state * gmap string file :=
  if is_empty (total_results st) then (emit (Print NoResults) st, fs)
  else
    let df := pd.DataFrame_of (total_results st) in
    let name := filename location latrange1 longrange1 now in
    let header := negb (bool_decide (is_Some (fs !! name))) in
    let st := emit (ToCsv (total_results st) header) st in
    let st := emit (Print (AllRetrieved (current_count st))) st in
    let st := emit (Print (Table df)) st in
    (st, <[name := default [] (fs !! name) ++ pd.to_csv df header]> fs).

(** [send_request]; [now] is the clock at line 104. *)
Definition send_request (now : Py.datetime) (fs : gmap string file)
    (server : list outcome) (latrange1 latrange2 longrange1 longrange2 : float)
    (location : string) (request_delay max_retries : nat)
  : run * gmap string file :=
  match loop request_delay max_retries server init with
  | Left why st =>
      let '(st', fs') := save now fs location latrange1 longrange1 st in
      (Left why st', fs')
  | r => (r, fs)
  end.

End Session.

End Wifi.

(** ** wigle.py *)

Module Wigle.

Record state := {
  retries : nat;
  log : list event }.

Definition emit (e : event) (st : state) : state :=
  {| retries := retries st; log := log st ++ [e] |}.

Definition add_retry (st : state) : state :=
  {| retries := retries st + 1; log := log st |}.

Inductive run :=
| Returned (why : exit) (st : state)
| Waiting (st : state).

Section Session.

Context {float : Type} (str_float : float -> string).

(** Line 63: the name has no time in it. *)
Definition filename (location : string) (latrange1 longrange1 : float)
  : string :=
  "tests/" +:+ location +:+ "_" +:+ str_float latrange1 +:+ "_"
    +:+ str_float longrange1 +:+ ".csv".

(** [send_request], lines 43-77.  The query has no [first] and no
    [start]; [to_csv] is given a path and no mode, so it replaces the
    file. *)
Fixpoint loop (name : string) (max_retries retry_delay : nat)
    (server : list outcome) (fs : gmap string file) (st : state)
  : run * gmap string file :=
  if retries st <? max_retries then
    let st := emit (Get None) st in
    match server with
    | [] => (Waiting st, fs)
    | Response status_code body :: server' =>
        if (status_code =? 200)%Z then
          match body with
          | Some {| results := Some results |} =>
              let df := pd.DataFrame_of results in
              let st := emit (Print (Table df)) st in
              let st := emit (ToCsv results true) st in
              (Returned Saved st, <[name := pd.to_csv df true]> fs)
          | _ => (Returned Failed (emit (Print AnErrorOccurred) st), fs)
          end
        else if (status_code =? 429)%Z then
          loop name max_retries retry_delay server' fs
            (add_retry (emit (Sleep retry_delay)
                          (emit (Print TooManyRequestsWaiting) st)))
        else (Returned (HttpError status_code)
                (emit (Print (ErrorStatus status_code)) st), fs)
    | Raise e :: _ =>
        (Returned Failed (emit (Print AnErrorOccurred) st), fs)
    end
  else (Returned Exhausted st, fs).

Definition send_request (fs : gmap string file) (server : list outcome)
    (latrange1 latrange2 longrange1 longrange2 : float) (location : string)
    (max_retries retry_delay : nat) : run * gmap string file :=
  loop (filename location latrange1 longrange1) max_retries retry_delay
    server fs {| retries := 0; log := [] |}.

End Session.

End Wigle.

(** ** Cellular-csvtokml.py *)

Module CellularCsvToKml.

Definition NL : string := String csv.LF EmptyString.
Definition dq : string := String csv.quotechar EmptyString.

(** ['{}'.format(v)]: the missing value of a short row prints as None. *)
Definition format (v : option string) : string := default "None" v.

(** Lines 14-24 for one row; [None] is the [KeyError] of a column that the
    file does not have. *)
Definition placemark (row : gmap string (option string)) : option string :=
  match row !! "trilat", row !! "trilong", row !! "id" with
  | Some lat, Some lon, Some network_id =>
      Some ("<Placemark>" +:+ NL
            +:+ "<name>" +:+ format network_id +:+ "</name>" +:+ NL
            +:+ "<description>ID: " +:+ format network_id
            +:+ "</description>" +:+ NL
            +:+ "<Point>" +:+ NL
            +:+ "<coordinates>" +:+ format lon +:+ "," +:+ format lat
            +:+ ",0</coordinates>" +:+ NL
            +:+ "</Point>" +:+ NL
            +:+ "</Placemark>" +:+ NL)
  | _, _, _ => None
  end.

Fixpoint placemarks (rows : list (gmap string (option string)))
  : option string :=
  match rows with
  | [] => Some EmptyString
  | row :: rows' =>
      match placemark row, placemarks rows' with
      | Some p, Some ps => Some (p +:+ ps)
      | _, _ => None
      end
  end.

(** The rows that [csv.DictReader(csvfile)] yields for a file opened with
    [open(csv_file, 'r')]. *)
Definition read_rows (csv_text : string)
  : option (list (gmap string (option string))) :=
  csv.DictReader (csv.readlines csv_text).

(** [csv_to_kml]: from the text of the CSV file to the text of the KML
    file; [None] when an exception leaves the function. *)
Definition csv_to_kml (csv_text : string) : option string :=
  match read_rows csv_text with
  | None => None
  | Some rows =>
      match placemarks rows with
      | None => None
      | Some body =>
          Some ("<?xml version=" +:+ dq +:+ "1.0" +:+ dq +:+ " encoding="
                +:+ dq +:+ "UTF-8" +:+ dq +:+ "?>" +:+ NL
                +:+ "<kml xmlns=" +:+ dq +:+ "http://www.opengis.net/kml/2.2"
                +:+ dq +:+ ">" +:+ NL
                +:+ "<Document>" +:+ NL
                +:+ body
                +:+ "</Document>" +:+ NL
                +:+ "</kml>" +:+ NL)
      end
  end.

End CellularCsvToKml.

(** ** Vocabulary of the properties *)

(** The batches handed to [to_csv], in the order of the calls. *)
Fixpoint batches (l : list event) : list (list pd.record) :=
  match l with
  | [] => []
  | ToCsv results _ :: l' => results :: batches l'
  | _ :: l' => batches l'
  end.

(** The requests sent, by their [start] parameter, in order. *)
Fixpoint gets (l : list event) : list (option nat) :=
  match l with
  | [] => []
  | Get start :: l' => start :: gets l'
  | _ :: l' => gets l'
  end.

Definition header_row (batch : list pd.record) : list string :=
  pd.columns (pd.DataFrame_of batch).

Definition data_rows (batch : list pd.record) : list (list string) :=
  pd.values (pd.DataFrame_of batch).

(** The content of a file that was empty before the given batches went
    through the [to_csv] of bluetooth.py. *)
Definition sink_of (bs : list (list pd.record)) : file :=
  match bs with
  | [] => []
  | b :: _ => header_row b :: concat (map data_rows bs)
  end.

(** The file of a session is the file of the batches of its log. *)
Definition sink_inv (st : Bluetooth.state) : Prop :=
  Bluetooth.f st = sink_of (batches (Bluetooth.log st)).

Definition step_state (s : Bluetooth.step) : Bluetooth.state :=
  match s with Bluetooth.Continue st => st | Bluetooth.Break _ st => st end.

(** The failures that bluetooth.py retries: timeouts and connection
    errors. *)
Definition transient (o : outcome) : bool :=
  match o with
  | Raise e => is_Timeout e || is_ConnectionError e
  | Response _ _ => false
  end.

(** The failures that wifi.py retries: connection errors only. *)
Definition connection_error (o : outcome) : bool :=
  match o with
  | Raise e => is_ConnectionError e
  | Response _ _ => false
  end.

(** What bluetooth.py prints when it retries. *)
Definition retry_message (o : outcome) : message :=
  match o with
  | Raise e => if is_Timeout e then TimedOutRetrying else ConnectionErrorRetrying
  | Response _ _ => ConnectionErrorRetrying
  end.

(** The effects of one failed attempt: the request, the message, the
    sleep. *)
Definition attempt (delay : nat) (start : option nat) (o : outcome)
  : list event :=
  [Get start; Print (retry_message o); Sleep delay].

(** The state of bluetooth.py after the failed attempts [os]. *)
Definition failed (st : Bluetooth.state) (os : list outcome) : Bluetooth.state :=
  {| Bluetooth.current_count := Bluetooth.current_count st;
     Bluetooth.total_count := Bluetooth.total_count st;
     Bluetooth.retries := Bluetooth.retries st + length os;
     Bluetooth.start := Bluetooth.start st;
     Bluetooth.f := Bluetooth.f st;
     Bluetooth.log :=
       Bluetooth.log st
       ++ flat_map (attempt Bluetooth.REQUEST_DELAY (Bluetooth.start st)) os |}.

(** The state of wifi.py after the failed attempts [os]. *)
Definition wifi_failed (request_delay : nat) (st : Wifi.state)
    (os : list outcome) : Wifi.state :=
  {| Wifi.total_results := Wifi.total_results st;
     Wifi.current_count := Wifi.current_count st;
     Wifi.total_count := Wifi.total_count st;
     Wifi.retries := Wifi.retries st + length os;
     Wifi.start := Wifi.start st;
     Wifi.log :=
       Wifi.log st
       ++ flat_map (fun _ => [Get (Wifi.start st);
                              Print ConnectionErrorRetrying;
                              Sleep request_delay]) os |}.

Definition wifi_step_state (s : Wifi.step) : Wifi.state :=
  match s with
  | Wifi.Continue st => st
  | Wifi.Break _ st => st
  | Wifi.Return _ st => st
  end.

(** A body of a 200 response that lacks what the loop reads. *)
Definition malformed (body : option json) : Prop :=
  match body with
  | None => True
  | Some data => results data = None \/ totalResults data = None
  end.

(** The outcomes on which bluetooth.py gives up at once, with the exit
    they lead to. *)
Definition gives_up (o : outcome) (why : exit) : Prop :=
  match o with
  | Response status_code body =>
      if (status_code =? 200)%Z then why = Failed /\ malformed body
      else if (status_code =? 401)%Z then why = Unauthorized
      else if (status_code =? 429)%Z then why = RateLimited
      else why = HttpError status_code
  | Raise e =>
      if is_Timeout e then False
      else if is_TooManyRedirects e then why = Redirects
      else if is_ConnectionError e then False
      else why = Failed
  end.

(** The exit and the message of bluetooth.py and wifi.py for a status
    that is neither 200 nor 429. *)
Definition error_exit (status_code : Z) : exit :=
  if (status_code =? 401)%Z then Unauthorized else HttpError status_code.

Definition error_message (status_code : Z) : message :=
  if (status_code =? 401)%Z then UnauthorizedMsg else ErrorStatus status_code.

(** Two clock readings in the same second. *)
Definition same_second (t t' : Py.datetime) : Prop :=
  Py.year t = Py.year t' /\ Py.month t = Py.month t' /\ Py.day t = Py.day t'
  /\ Py.hour t = Py.hour t' /\ Py.minute t = Py.minute t'
  /\ Py.second t = Py.second t'.

(** A character that is neither the escape character nor a line ending. *)
Definition plain_char (c : ascii) : bool :=
  negb (csv.eqc c backslash || csv.eqc c csv.LF || csv.eqc c csv.CR).

(** A field without escape character and without line ending. *)
Fixpoint plain (s : string) : bool :=
  match s with
  | EmptyString => true
  | String c rest => plain_char c && plain rest
  end.

(** The characters of a string given to the parser, without the
    end-of-line mark. *)
Fixpoint feed (r : csv.ReaderObj) (s : string) : option csv.ReaderObj :=
  match s with
  | EmptyString => Some r
  | String c rest =>
      match csv.parse_process_char r (Some c) with
      | Some r' => feed r' rest
      | None => None
      end
  end.

(** A field with its quotes doubled, and whether it holds a delimiter or a
    quote. *)
Fixpoint doubled (s : string) : string :=
  match s with
  | EmptyString => EmptyString
  | String c rest =>
      if csv.eqc c csv.quotechar
      then String csv.quotechar (String csv.quotechar (doubled rest))
      else String c (doubled rest)
  end.

Fixpoint needs_quote (s : string) : bool :=
  match s with
  | EmptyString => false
  | String c rest =>
      csv.eqc c csv.delimiter || csv.eqc c csv.quotechar || needs_quote rest
  end.

(** A text without line ending. *)
Fixpoint one_line (s : string) : bool :=
  match s with
  | EmptyString => true
  | String c rest => negb (csv.is_crnl c) && one_line rest
  end.

(** The parser between two fields, [fl] being the fields read so far, last
    one first. *)
Definition between (st : csv.ParserState) (fl : list string) : csv.ReaderObj :=
  {| csv.state := st; csv.field := EmptyString; csv.fields := fl |}.

(** A record whose keys and values are plain. *)
Definition plain_record (r : pd.record) : bool :=
  forallb (fun kv => plain kv.1 && plain kv.2) r.

(** The value read under a key, for each row that [DictReader] yields. *)
Definition column (k : string) (rows : list (gmap string (option string)))
  : list (option (option string)) :=
  map (fun row => row !! k) rows.

Definition wifi_state_of (r : Wifi.run) : Wifi.state :=
  match r with
  | Wifi.Left _ st => st
  | Wifi.Returned _ st => st
  | Wifi.Waiting st => st
  end.

(** The number of results that an answer carries for the loop: those of a
    200 answer whose body has results. *)
Definition page_size (o : outcome) : nat :=
  match o with
  | Response status_code (Some data) =>
      if (status_code =? 200)%Z
      then match results data with Some rs => length rs | None => 0 end
      else 0
  | _ => 0
  end.

(** The number of results that a server holds ready in its pages. *)
Definition served (server : list outcome) : nat :=
  foldr (fun o n => page_size o + n) 0 server.

(** Inputs of the examples. *)
Module Ex.

(** Floats, given by their text. *)
Definition str (x : string) : string := x.

Definition now : Py.datetime :=
  {| Py.year := 2024; Py.month := 5; Py.day := 17;
     Py.hour := 9; Py.minute := 30; Py.second := 0; Py.microsecond := 0 |}.

(** A moment of the same second, and the next second. *)
Definition same_second : Py.datetime :=
  {| Py.year := 2024; Py.month := 5; Py.day := 17;
     Py.hour := 9; Py.minute := 30; Py.second := 0; Py.microsecond := 700 |}.

Definition later : Py.datetime :=
  {| Py.year := 2024; Py.month := 5; Py.day := 17;
     Py.hour := 9; Py.minute := 30; Py.second := 1; Py.microsecond := 0 |}.

Definition obs (id : string) : pd.record :=
  [("trilat", "47.25"); ("trilong", "-122.45"); ("id", id)].

Definition page (ids : list string) (total : Z) : outcome :=
  Response 200
    (Some {| results := Some (map obs ids); totalResults := Some total |}).

(** A total of 5 served as pages of 2, 2 and 1. *)
Definition three_pages : list outcome :=
  [page ["a"; "b"] 5; page ["c"; "d"] 5; page ["e"] 5].

(** Sessions that wait for their second page, 1 result out of 2 being
    received. *)
Definition first_page : list outcome := [page ["a"] 2].

Definition bluetooth_waiting : Bluetooth.run * gmap string file :=
  Bluetooth.send_request str now ∅ first_page "47.2" "47.3" "-122.5" "-122.4".

Definition wifi_waiting : Wifi.run * gmap string file :=
  Wifi.send_request str now ∅ first_page "47.2" "47.3" "-122.5" "-122.4"
    "tacoma" 5 3.

(** Two sessions of wigle.py with the same arguments, one after the other. *)
Definition wigle_first : Wigle.run * gmap string file :=
  Wigle.send_request str ∅ [page ["a"] 1]
    "47.2" "47.3" "-122.5" "-122.4" "tacoma" 3 60.

Definition wigle_second : Wigle.run * gmap string file :=
  Wigle.send_request str wigle_first.2 [page ["b"] 1]
    "47.2" "47.3" "-122.5" "-122.4" "tacoma" 3 60.

(** A name with a backslash in it, and the same with the backslash
    doubled. *)
Definition a_backslash_b : string :=
  String "a" (String backslash (String "b" EmptyString)).

Definition a_2backslash_b : string :=
  String "a" (String backslash (String backslash (String "b" EmptyString))).

(** The file of bluetooth.py after one batch of one observation with that
    name, written to an empty file. *)
Definition sink_with_backslash : file :=
  Bluetooth.f (Bluetooth.write [obs a_backslash_b] (Bluetooth.init [])).

End Ex.

(** ** Properties *)

(** *** Files *)

Lemma string_length_app (s1 s2 : string) :
  String.length (s1 +:+ s2) = String.length s1 + String.length s2.
Proof.
  induction s1 as [|c s1 IH]; [reflexivity|].
  change (String c s1 +:+ s2) with (String c (s1 +:+ s2)).
  simpl. now rewrite IH.
Qed.

Lemma writerow_length (e : ascii) (row : list string) :
  0 < String.length (csv.writerow e row).
Proof.
  unfold csv.writerow. rewrite string_length_app. simpl. lia.
Qed.

Lemma tell_cons (row : list string) (f : file) : (tell (row :: f) =? 0) = false.
Proof.
  apply Nat.eqb_neq. unfold tell, render. simpl.
  rewrite string_length_app.
  pose proof (writerow_length backslash row). lia.
Qed.

Lemma batches_app (l1 l2 : list event) :
  batches (l1 ++ l2) = batches l1 ++ batches l2.
Proof.
  induction l1 as [|[] l1 IH]; simpl; rewrite ?IH; reflexivity.
Qed.

Lemma gets_app (l1 l2 : list event) : gets (l1 ++ l2) = gets l1 ++ gets l2.
Proof.
  induction l1 as [|[] l1 IH]; simpl; rewrite ?IH; reflexivity.
Qed.

(** Appending one more batch to the file of [bs]. *)
Lemma sink_of_snoc (bs : list (list pd.record)) (rs : list pd.record) :
  sink_of bs ++ pd.to_csv (pd.DataFrame_of rs) (tell (sink_of bs) =? 0)
  = sink_of (bs ++ [rs]).
Proof.
  destruct bs as [|b bs].
  - simpl. unfold pd.to_csv, header_row, data_rows. simpl.
    now rewrite app_nil_r.
  - unfold sink_of at 1 2. rewrite tell_cons. simpl.
    unfold pd.to_csv. simpl.
    rewrite map_app, concat_app. simpl. rewrite app_nil_r.
    now rewrite <- app_assoc.
Qed.

(** *** The loop of bluetooth.py *)

Lemma sink_inv_emit (e : event) (st : Bluetooth.state) :
  batches [e] = [] -> sink_inv st -> sink_inv (Bluetooth.emit e st).
Proof.
  unfold sink_inv, Bluetooth.emit. cbn [Bluetooth.f Bluetooth.log].
  intros He ->. now rewrite batches_app, He, app_nil_r.
Qed.

Lemma sink_inv_write (rs : list pd.record) (st : Bluetooth.state) :
  sink_inv st -> sink_inv (Bluetooth.write rs st).
Proof.
  unfold sink_inv, Bluetooth.write. cbn [Bluetooth.f Bluetooth.log].
  intros ->. rewrite batches_app. apply sink_of_snoc.
Qed.

(** Case analysis on what [requests.get] gave and on the tests of the
    loop body. *)
Ltac outcome_cases o :=
  let sc := fresh "status_code" in
  let rs := fresh "results" in
  let tr := fresh "total" in
  let e := fresh "e" in
  destruct o as [sc [[[rs|] [tr|]]|]|e].

Ltac branch_cases :=
  repeat match goal with
    | |- context [(?a =? ?b)%Z] => destruct (Z.eqb_spec a b)
    | |- context [(?a <=? ?b)%Z] => destruct (Z.leb_spec a b)
    | |- context [match ?x with Some _ => _ | None => _ end] =>
        destruct x eqn:?
    | |- context [if ?b then _ else _] => destruct b eqn:?
    end.

Lemma iteration_sink_inv (st : Bluetooth.state) (o : outcome) :
  sink_inv st -> sink_inv (step_state (Bluetooth.iteration st o)).
Proof.
  intros Hst.
  assert (Hw : forall rs t n,
             sink_inv (Bluetooth.write rs
                         (Bluetooth.emit (Print (Retrieved n t))
                            (Bluetooth.set_total t
                               (Bluetooth.add_count (length rs) st))))).
  { intros. apply sink_inv_write, sink_inv_emit; [reflexivity|exact Hst]. }
  unfold Bluetooth.iteration, Bluetooth.on_success.
  outcome_cases o; cbn [results totalResults]; branch_cases;
    cbn [step_state];
    repeat (apply sink_inv_emit; [reflexivity|]);
    try exact Hst; try apply Hw.
Qed.

Lemma loop_sink_inv (server : list outcome) (st : Bluetooth.state) :
  sink_inv st -> sink_inv (Bluetooth.state_of (Bluetooth.loop server st)).
Proof.
  revert st. induction server as [|o server IH]; intros st Hst; simpl.
  - destruct (Bluetooth.retries st <? Bluetooth.MAX_RETRIES); simpl;
      [apply sink_inv_emit; [reflexivity|]|]; exact Hst.
  - destruct (Bluetooth.retries st <? Bluetooth.MAX_RETRIES); [|exact Hst].
    pose proof (iteration_sink_inv (Bluetooth.emit (Get (Bluetooth.start st)) st) o
                  (sink_inv_emit (Get (Bluetooth.start st)) st eq_refl Hst)) as Hit.
    destruct (Bluetooth.iteration _ o); simpl in Hit; [apply IH|]; exact Hit.
Qed.

Lemma finish_sink_inv (r : Bluetooth.run) :
  sink_inv (Bluetooth.state_of r) ->
  sink_inv (Bluetooth.state_of (Bluetooth.finish r)).
Proof.
  destruct r; simpl; [|trivial]. now apply sink_inv_emit.
Qed.

Lemma session_sink (server : list outcome) (f0 : file) :
  f0 = [] ->
  sink_inv (Bluetooth.state_of
              (Bluetooth.finish (Bluetooth.loop server (Bluetooth.init f0)))).
Proof.
  intros ->. apply finish_sink_inv, loop_sink_inv. reflexivity.
Qed.

(** C5: a session of bluetooth.py or of BluetoothCellularWiFi.py that
    starts on a fresh file (absent or empty) and hands N >= 1 batches to
    [to_csv] leaves in that file exactly one header row, the one of the
    first batch, followed by the data rows of the N batches in the order
    of their arrival, whatever N is. *)
Theorem C5_one_header_then_rows :
  (forall (float : Type) (str_float : float -> string) (now : Py.datetime)
          (fs fs' : gmap string file) (server : list outcome)
          (latrange1 latrange2 longrange1 longrange2 : float)
          (r : Bluetooth.run) (b : list pd.record) (bs : list (list pd.record)),
      default [] (fs !! Bluetooth.filename str_float latrange1 longrange1 now) = [] ->
      Bluetooth.send_request str_float now fs server
        latrange1 latrange2 longrange1 longrange2 = (r, fs') ->
      batches (Bluetooth.log (Bluetooth.state_of r)) = b :: bs ->
      fs' !! Bluetooth.filename str_float latrange1 longrange1 now
      = Some (header_row b :: concat (map data_rows (b :: bs))))
  /\
  (forall (now : Py.datetime) (fs fs' : gmap string file)
          (server : list outcome) (api_type : Z) (api_endpoint : string)
          (r : Bluetooth.run) (b : list pd.record) (bs : list (list pd.record)),
      BluetoothCellularWiFi.index BluetoothCellularWiFi.api_endpoints api_type
      = Some api_endpoint ->
      default [] (fs !! BluetoothCellularWiFi.filename api_endpoint now) = [] ->
      BluetoothCellularWiFi.send_request now fs server api_type = Some (r, fs') ->
      batches (Bluetooth.log (Bluetooth.state_of r)) = b :: bs ->
      fs' !! BluetoothCellularWiFi.filename api_endpoint now
      = Some (header_row b :: concat (map data_rows (b :: bs)))).
Proof.
  split.
  - intros float str_float now fs fs' server lat1 lat2 lon1 lon2 r b bs
      Hfresh Hrun Hbs.
    unfold Bluetooth.send_request in Hrun.
    injection Hrun as <- <-.
    rewrite lookup_insert_eq. f_equal.
    pose proof (session_sink server _ Hfresh) as Hinv.
    unfold sink_inv in Hinv. rewrite Hinv, Hbs. reflexivity.
  - intros now fs fs' server api_type api_endpoint r b bs Hidx Hfresh Hrun Hbs.
    unfold BluetoothCellularWiFi.send_request, BluetoothCellularWiFi.loop in Hrun.
    rewrite Hidx in Hrun. injection Hrun as <- <-.
    rewrite lookup_insert_eq. f_equal.
    pose proof (session_sink server _ Hfresh) as Hinv.
    unfold sink_inv in Hinv. rewrite Hinv, Hbs. reflexivity.
Qed.

(** The end-to-end scenario of the specification, in small: a total of 5
    served as pages of 2, 2 and 1. *)
Lemma C5_one_header_then_rows_witness :
  (Bluetooth.send_request Ex.str Ex.now ∅ Ex.three_pages
     "47.2" "47.3" "-122.5" "-122.4").2
    !! Bluetooth.filename Ex.str "47.2" "-122.5" Ex.now
  = Some (header_row (map Ex.obs ["a"; "b"])
          :: concat (map data_rows
                       [map Ex.obs ["a"; "b"]; map Ex.obs ["c"; "d"];
                        map Ex.obs ["e"]]))
  /\
  option_map (fun x => x.2 !! BluetoothCellularWiFi.filename "cell/search" Ex.now)
    (BluetoothCellularWiFi.send_request Ex.now ∅ Ex.three_pages 1%Z)
  = Some (Some (header_row (map Ex.obs ["a"; "b"])
                :: concat (map data_rows
                             [map Ex.obs ["a"; "b"]; map Ex.obs ["c"; "d"];
                              map Ex.obs ["e"]]))).
Proof.
  split.
  - eapply (proj1 C5_one_header_then_rows)
      with (fs := ∅) (server := Ex.three_pages)
           (latrange2 := "47.3") (longrange2 := "-122.4").
    + reflexivity.
    + apply surjective_pairing.
    + reflexivity.
  - pose (r0 := Bluetooth.finish
                  (Bluetooth.loop Ex.three_pages (Bluetooth.init []))).
    assert (Hrun : BluetoothCellularWiFi.send_request Ex.now ∅ Ex.three_pages 1%Z
                   = Some (r0, <[BluetoothCellularWiFi.filename "cell/search" Ex.now
                                 := Bluetooth.f (Bluetooth.state_of r0)]> ∅))
      by reflexivity.
    rewrite Hrun. cbv beta iota delta [option_map snd]. apply (f_equal Some).
    eapply (proj2 C5_one_header_then_rows)
      with (fs := ∅) (server := Ex.three_pages) (api_type := 1%Z).
    + reflexivity.
    + reflexivity.
    + exact Hrun.
    + reflexivity.
Defined.

(** *** The token prompt *)

(** C10: [is_valid_token] accepts the empty string, so [get_token], given
    an empty first line, returns at once the header whose value is the
    word Basic and a space with no token after it: nothing is rejected and
    no further line is read. *)
Theorem C10_empty_token_accepted :
  forall (unicode_alnum : ascii -> bool) (rest : list string),
    Token.is_valid_token unicode_alnum EmptyString = true /\
    Token.get_token unicode_alnum (EmptyString :: rest)
    = Some ({[ "Authorization" := "Basic " ]}, rest, 0).
Proof.
  intros table rest. split; reflexivity.
Qed.

(** *** Steps of the loop of bluetooth.py *)

(** Extending a script that left the loop waiting. *)
Lemma loop_app (pre : list outcome) (o : outcome) (rest : list outcome)
    (st st1 : Bluetooth.state) :
  Bluetooth.loop pre st = Bluetooth.Waiting st1 ->
  Bluetooth.loop (pre ++ o :: rest) st
  = match Bluetooth.iteration st1 o with
    | Bluetooth.Continue st' => Bluetooth.loop rest st'
    | Bluetooth.Break why st' => Bluetooth.Returned why st'
    end.
Proof.
  revert st. induction pre as [|o' pre IH]; intros st; simpl.
  - destruct (Bluetooth.retries st <? Bluetooth.MAX_RETRIES); [|discriminate].
    intros [= <-]. reflexivity.
  - destruct (Bluetooth.retries st <? Bluetooth.MAX_RETRIES); [|discriminate].
    destruct (Bluetooth.iteration _ o'); [apply IH|discriminate].
Qed.

(** The retry counter after one iteration. *)
Lemma iteration_retries (st : Bluetooth.state) (o : outcome) :
  Bluetooth.retries (step_state (Bluetooth.iteration st o))
  = Bluetooth.retries st + (if transient o then 1 else 0).
Proof.
  unfold Bluetooth.iteration, Bluetooth.on_success.
  outcome_cases o; cbn [results totalResults transient]; branch_cases;
    cbn; try lia; try discriminate.
  all: destruct e; simpl in *; try discriminate; lia.
Qed.

(** Only a retry lets the loop go on with one more failure counted. *)
Lemma iteration_break_retries (st st' : Bluetooth.state) (o : outcome) (why : exit) :
  Bluetooth.iteration st o = Bluetooth.Break why st' ->
  Bluetooth.retries st' = Bluetooth.retries st.
Proof.
  intros H. pose proof (iteration_retries st o) as Hr. rewrite H in Hr.
  simpl in Hr. rewrite Hr.
  destruct o as [sc body|e]; simpl; [lia|].
  unfold Bluetooth.iteration in H.
  destruct e; simpl in *; try discriminate; lia.
Qed.

(** Why an iteration leaves the loop. *)
Lemma iteration_break (st st' : Bluetooth.state) (o : outcome) (why : exit) :
  Bluetooth.iteration st o = Bluetooth.Break why st' ->
  (why = Completed /\
   exists t, Bluetooth.total_count st' = Some t /\
             (t <= Z.of_nat (Bluetooth.current_count st'))%Z)
  \/ (why <> Completed /\ why <> Exhausted /\ why <> Saved /\ gives_up o why).
Proof.
  unfold Bluetooth.iteration, Bluetooth.on_success, gives_up, malformed.
  outcome_cases o; cbn [results totalResults]; branch_cases;
    intros [= <- <-]; try (right; repeat split; (discriminate || auto; fail));
    try (left; split; [reflexivity|]; eexists; split; [reflexivity|];
         simpl in *; lia).
  destruct (Bluetooth.total_count _); discriminate.
Qed.

(** Why the loop is over. *)
Lemma loop_returned (server : list outcome) (st st' : Bluetooth.state) (why : exit) :
  Bluetooth.loop server st = Bluetooth.Returned why st' ->
  (why = Completed /\
   exists t, Bluetooth.total_count st' = Some t /\
             (t <= Z.of_nat (Bluetooth.current_count st'))%Z)
  \/ (why = Exhausted /\ Bluetooth.MAX_RETRIES <= Bluetooth.retries st')
  \/ (why <> Completed /\ why <> Exhausted /\ why <> Saved /\
      exists o, o ∈ server /\ gives_up o why).
Proof.
  revert st. induction server as [|o server IH]; intros st; simpl.
  - destruct (Nat.ltb_spec (Bluetooth.retries st) Bluetooth.MAX_RETRIES);
      [discriminate|].
    intros [= <- <-]. right. left. split; [reflexivity|assumption].
  - destruct (Nat.ltb_spec (Bluetooth.retries st) Bluetooth.MAX_RETRIES).
    + destruct (Bluetooth.iteration _ o) as [st1|why1 st1] eqn:Hit.
      * intros Hl. destruct (IH _ Hl) as [?|[?|(?&?&?&o'&?&?)]]; auto.
        right. right. repeat split; auto. exists o'. split; [|assumption].
        now apply list_elem_of_further.
      * intros [= <- <-].
        destruct (iteration_break _ _ _ _ Hit) as [?|(?&?&?&?)]; auto.
        right. right. repeat split; auto. exists o. split; [|assumption].
        apply list_elem_of_here.
    + intros [= <- <-]. right. left. split; [reflexivity|assumption].
Qed.

(** The log only grows. *)
Lemma iteration_log (st : Bluetooth.state) (o : outcome) :
  exists l, Bluetooth.log (step_state (Bluetooth.iteration st o))
            = Bluetooth.log st ++ l.
Proof.
  unfold Bluetooth.iteration, Bluetooth.on_success.
  outcome_cases o; cbn [results totalResults]; branch_cases; cbn;
    rewrite <- ?app_assoc; eauto.
Qed.

Lemma loop_log (server : list outcome) (st : Bluetooth.state) :
  exists l, Bluetooth.log (Bluetooth.state_of (Bluetooth.loop server st))
            = Bluetooth.log st
              ++ (if Bluetooth.retries st <? Bluetooth.MAX_RETRIES
                  then Get (Bluetooth.start st) :: l else []).
Proof.
  revert st. induction server as [|o server IH]; intros st; simpl.
  - destruct (Bluetooth.retries st <? Bluetooth.MAX_RETRIES); simpl; eauto.
    exists []. now rewrite app_nil_r.
  - destruct (Bluetooth.retries st <? Bluetooth.MAX_RETRIES); simpl.
    + destruct (iteration_log (Bluetooth.emit (Get (Bluetooth.start st)) st) o)
        as [l Hl].
      destruct (Bluetooth.iteration _ o) as [st1|why1 st1]; simpl in Hl.
      * destruct (IH st1) as [l' Hl']. rewrite Hl', Hl.
        rewrite <- !app_assoc. simpl. eauto.
      * simpl. rewrite Hl, <- app_assoc. simpl. eauto.
    + exists []. now rewrite app_nil_r.
Qed.

(** A run of failures that the loop retries. *)
Lemma loop_failed (os rest : list outcome) (st : Bluetooth.state) :
  forallb transient os = true ->
  Bluetooth.retries st + length os <= Bluetooth.MAX_RETRIES ->
  Bluetooth.loop (os ++ rest) st = Bluetooth.loop rest (failed st os).
Proof.
  revert st. induction os as [|o os IH]; intros st Hall Hlen.
  - simpl. f_equal. unfold failed. destruct st; simpl.
    now rewrite Nat.add_0_r, app_nil_r.
  - simpl in Hall. apply andb_true_iff in Hall as [Ho Hall].
    simpl in Hlen. simpl.
    destruct (Nat.ltb_spec (Bluetooth.retries st) Bluetooth.MAX_RETRIES); [|lia].
    assert (Hit : Bluetooth.iteration
                    (Bluetooth.emit (Get (Bluetooth.start st)) st) o
                  = Bluetooth.Continue (failed st [o])).
    { destruct o as [|e]; [discriminate|].
      unfold Bluetooth.iteration, failed, Bluetooth.emit, Bluetooth.add_retry.
      destruct e; try discriminate; simpl; rewrite <- !app_assoc; reflexivity. }
    rewrite Hit, IH; [|assumption|simpl; lia].
    f_equal. unfold failed. simpl. f_equal; [lia|].
    now rewrite <- !app_assoc.
Qed.

Lemma loop_exhausted (server : list outcome) (st : Bluetooth.state) :
  Bluetooth.MAX_RETRIES <= Bluetooth.retries st ->
  Bluetooth.loop server st = Bluetooth.Returned Exhausted st.
Proof.
  intros H. destruct server; simpl;
    destruct (Nat.ltb_spec (Bluetooth.retries st) Bluetooth.MAX_RETRIES);
    try lia; reflexivity.
Qed.

(** The counter never passes the bound, and the loop is exhausted when it
    reaches it. *)
Lemma loop_retries (server : list outcome) (st st' : Bluetooth.state) (why : exit) :
  Bluetooth.retries st <= Bluetooth.MAX_RETRIES ->
  Bluetooth.loop server st = Bluetooth.Returned why st' ->
  Bluetooth.retries st' <= Bluetooth.MAX_RETRIES /\
  (why = Exhausted <-> Bluetooth.retries st' = Bluetooth.MAX_RETRIES).
Proof.
  revert st. induction server as [|o server IH]; intros st Hle; simpl.
  - destruct (Nat.ltb_spec (Bluetooth.retries st) Bluetooth.MAX_RETRIES);
      [discriminate|].
    intros [= <- <-]. split; [lia|]. split; [lia|reflexivity].
  - destruct (Nat.ltb_spec (Bluetooth.retries st) Bluetooth.MAX_RETRIES).
    + pose proof (iteration_retries (Bluetooth.emit (Get (Bluetooth.start st)) st) o)
        as Hr.
      destruct (Bluetooth.iteration _ o) as [st1|why1 st1] eqn:Hit.
      * apply IH. simpl in Hr. destruct (transient o); lia.
      * intros [= <- <-].
        pose proof (iteration_break_retries _ _ _ _ Hit) as Hb. simpl in Hb.
        split; [lia|]. split; [|lia].
        intros ->. destruct (iteration_break _ _ _ _ Hit) as [[? _]|(_&?&_)];
          [discriminate|contradiction].
    + intros [= <- <-]. split; [lia|]. split; [lia|reflexivity].
Qed.

(** *** Steps of the loop of wifi.py *)

Section WifiLoop.

Variables request_delay max_retries : nat.

Lemma wifi_loop_app (pre : list outcome) (o : outcome) (rest : list outcome)
    (st st1 : Wifi.state) :
  Wifi.loop request_delay max_retries pre st = Wifi.Waiting st1 ->
  Wifi.loop request_delay max_retries (pre ++ o :: rest) st
  = match Wifi.iteration request_delay st1 o with
    | Wifi.Continue st' => Wifi.loop request_delay max_retries rest st'
    | Wifi.Break why st' => Wifi.Left why st'
    | Wifi.Return why st' => Wifi.Returned why st'
    end.
Proof.
  revert st. induction pre as [|o' pre IH]; intros st; simpl.
  - destruct (Wifi.retries st <? max_retries); [|discriminate].
    intros [= <-]. reflexivity.
  - destruct (Wifi.retries st <? max_retries); [|discriminate].
    destruct (Wifi.iteration _ _ o'); [apply IH|discriminate..].
Qed.

Lemma wifi_iteration_retries (st : Wifi.state) (o : outcome) :
  Wifi.retries (wifi_step_state (Wifi.iteration request_delay st o))
  = Wifi.retries st + (if connection_error o then 1 else 0).
Proof.
  unfold Wifi.iteration, Wifi.on_success.
  outcome_cases o; cbn [results totalResults connection_error]; branch_cases;
    cbn; try lia; try discriminate.
Qed.

Lemma wifi_iteration_continue (st : Wifi.state) (o : outcome) :
  connection_error o = true ->
  Wifi.iteration request_delay st o
  = Wifi.Continue (Wifi.emit (Sleep request_delay)
                     (Wifi.add_retry (Wifi.emit (Print ConnectionErrorRetrying) st))).
Proof.
  destruct o as [|e]; [discriminate|]. simpl. intros ->. reflexivity.
Qed.

Lemma wifi_iteration_stop (st : Wifi.state) (o : outcome) :
  connection_error o = false ->
  match Wifi.iteration request_delay st o with
  | Wifi.Continue st' => Wifi.retries st' = Wifi.retries st
  | Wifi.Break why st' | Wifi.Return why st' =>
      Wifi.retries st' = Wifi.retries st /\ why <> Exhausted
  end.
Proof.
  unfold Wifi.iteration, Wifi.on_success.
  outcome_cases o; cbn [results totalResults connection_error]; branch_cases;
    cbn; intros; try discriminate; try split; try reflexivity; discriminate.
Qed.

Lemma wifi_loop_failed (os rest : list outcome) (st : Wifi.state) :
  forallb connection_error os = true ->
  Wifi.retries st + length os <= max_retries ->
  Wifi.loop request_delay max_retries (os ++ rest) st
  = Wifi.loop request_delay max_retries rest (wifi_failed request_delay st os).
Proof.
  revert st. induction os as [|o os IH]; intros st Hall Hlen.
  - simpl. f_equal. unfold wifi_failed. destruct st; simpl.
    now rewrite Nat.add_0_r, app_nil_r.
  - simpl in Hall. apply andb_true_iff in Hall as [Ho Hall].
    simpl in Hlen. simpl.
    destruct (Nat.ltb_spec (Wifi.retries st) max_retries); [|lia].
    rewrite wifi_iteration_continue by assumption.
    rewrite IH; [|assumption|simpl; lia].
    f_equal. unfold wifi_failed, Wifi.emit, Wifi.add_retry. simpl.
    f_equal; [lia|]. now rewrite <- !app_assoc.
Qed.

Lemma wifi_loop_exhausted (server : list outcome) (st : Wifi.state) :
  max_retries <= Wifi.retries st ->
  Wifi.loop request_delay max_retries server st = Wifi.Left Exhausted st.
Proof.
  intros H. destruct server; simpl;
    destruct (Nat.ltb_spec (Wifi.retries st) max_retries); try lia; reflexivity.
Qed.

(** The exits of wifi.py and its counter. *)
Lemma wifi_loop_retries (server : list outcome) (st : Wifi.state) :
  Wifi.retries st <= max_retries ->
  match Wifi.loop request_delay max_retries server st with
  | Wifi.Left why st' | Wifi.Returned why st' =>
      Wifi.retries st' <= max_retries /\
      (why = Exhausted <-> Wifi.retries st' = max_retries)
  | Wifi.Waiting st' => Wifi.retries st' < max_retries
  end.
Proof.
  revert st. induction server as [|o server IH]; intros st Hle; simpl.
  - destruct (Nat.ltb_spec (Wifi.retries st) max_retries); simpl; [lia|].
    split; [lia|]. split; [lia|reflexivity].
  - destruct (Nat.ltb_spec (Wifi.retries st) max_retries).
    + pose proof (wifi_iteration_retries (Wifi.emit (Get (Wifi.start st)) st) o)
        as Hr.
      destruct (connection_error o) eqn:Hc.
      * rewrite wifi_iteration_continue by assumption.
        apply IH. simpl. lia.
      * pose proof (wifi_iteration_stop (Wifi.emit (Get (Wifi.start st)) st) o Hc)
          as Hs.
        destruct (Wifi.iteration _ _ o) as [st1|why1 st1|why1 st1]; simpl in *.
        -- apply IH. lia.
        -- destruct Hs as [Hs Hne]. split; [lia|]. split; [contradiction|lia].
        -- destruct Hs as [Hs Hne]. split; [lia|]. split; [contradiction|lia].
    + split; [lia|]. split; [lia|reflexivity].
Qed.

End WifiLoop.

(** *** Sessions *)

Lemma send_request_waiting {float : Type} (str_float : float -> string)
    (now : Py.datetime) (fs fs1 : gmap string file) (pre : list outcome)
    (lat1 lat2 lon1 lon2 : float) (st1 : Bluetooth.state) :
  Bluetooth.send_request str_float now fs pre lat1 lat2 lon1 lon2
  = (Bluetooth.Waiting st1, fs1) ->
  Bluetooth.loop pre
    (Bluetooth.init (default [] (fs !! Bluetooth.filename str_float lat1 lon1 now)))
  = Bluetooth.Waiting st1
  /\ fs1 = <[Bluetooth.filename str_float lat1 lon1 now := Bluetooth.f st1]> fs.
Proof.
  unfold Bluetooth.send_request.
  destruct (Bluetooth.loop pre _) as [why st|st]; simpl; [discriminate|].
  intros [= <- <-]. split; reflexivity.
Qed.

(** A session of bluetooth.py that is stopped by the answer [o]. *)
Lemma send_request_stopped {float : Type} (str_float : float -> string)
    (now : Py.datetime) (fs fs1 : gmap string file) (pre rest : list outcome)
    (o : outcome) (lat1 lat2 lon1 lon2 : float) (st1 : Bluetooth.state)
    (why : exit) (m : message) :
  (forall st, Bluetooth.iteration st o
              = Bluetooth.Break why (Bluetooth.emit (Print m) st)) ->
  Bluetooth.send_request str_float now fs pre lat1 lat2 lon1 lon2
  = (Bluetooth.Waiting st1, fs1) ->
  Bluetooth.send_request str_float now fs (pre ++ o :: rest) lat1 lat2 lon1 lon2
  = (Bluetooth.Returned why
       (Bluetooth.emit (Print (AllRetrieved (Bluetooth.current_count st1)))
          (Bluetooth.emit (Print m) st1)),
     fs1).
Proof.
  intros Ho Hpre. apply send_request_waiting in Hpre as [Hloop ->].
  unfold Bluetooth.send_request.
  rewrite (loop_app _ o rest _ _ Hloop), Ho. reflexivity.
Qed.

Lemma iteration_429 (body : option json) (st : Bluetooth.state) :
  Bluetooth.iteration st (Response 429 body)
  = Bluetooth.Break RateLimited (Bluetooth.emit (Print TooManyRequestsSaving) st).
Proof. reflexivity. Qed.

Lemma iteration_error (status_code : Z) (body : option json) (st : Bluetooth.state) :
  status_code <> 200%Z -> status_code <> 429%Z ->
  Bluetooth.iteration st (Response status_code body)
  = Bluetooth.Break (error_exit status_code)
      (Bluetooth.emit (Print (error_message status_code)) st).
Proof.
  intros H200 H429. unfold Bluetooth.iteration, error_exit, error_message.
  destruct (Z.eqb_spec status_code 200); [contradiction|].
  destruct (Z.eqb_spec status_code 401); [reflexivity|].
  destruct (Z.eqb_spec status_code 429); [contradiction|reflexivity].
Qed.

Lemma wifi_send_request_waiting {float : Type} (str_float : float -> string)
    (now : Py.datetime) (fs fs1 : gmap string file) (pre : list outcome)
    (lat1 lat2 lon1 lon2 : float) (location : string)
    (request_delay max_retries : nat) (st1 : Wifi.state) :
  Wifi.send_request str_float now fs pre lat1 lat2 lon1 lon2 location
    request_delay max_retries = (Wifi.Waiting st1, fs1) ->
  Wifi.loop request_delay max_retries pre Wifi.init = Wifi.Waiting st1 /\ fs1 = fs.
Proof.
  unfold Wifi.send_request.
  destruct (Wifi.loop request_delay max_retries pre Wifi.init) as [why st|why st|st].
  - destruct (Wifi.save _ _ _ _ _ _ _); discriminate.
  - discriminate.
  - intros [= <- <-]. split; reflexivity.
Qed.

Lemma wifi_iteration_error (request_delay : nat) (status_code : Z)
    (body : option json) (st : Wifi.state) :
  status_code <> 200%Z -> status_code <> 429%Z ->
  Wifi.iteration request_delay st (Response status_code body)
  = Wifi.Return (error_exit status_code)
      (Wifi.emit (Print (error_message status_code)) st).
Proof.
  intros H200 H429. unfold Wifi.iteration, error_exit, error_message.
  destruct (Z.eqb_spec status_code 200); [contradiction|].
  destruct (Z.eqb_spec status_code 401); [reflexivity|].
  destruct (Z.eqb_spec status_code 429); [contradiction|reflexivity].
Qed.

(** What [save] leaves in the file. *)
Lemma save_lookup {float : Type} (str_float : float -> string)
    (now : Py.datetime) (fs : gmap string file) (location : string)
    (lat1 lon1 : float) (st : Wifi.state) :
  Wifi.total_results st <> [] ->
  (Wifi.save str_float now fs location lat1 lon1 st).2
    !! Wifi.filename str_float location lat1 lon1 now
  = Some (default [] (fs !! Wifi.filename str_float location lat1 lon1 now)
          ++ pd.to_csv (pd.DataFrame_of (Wifi.total_results st))
               (negb (bool_decide
                        (is_Some (fs !! Wifi.filename str_float location lat1 lon1 now))))).
Proof.
  intros Hne. unfold Wifi.save.
  destruct (Wifi.total_results st) eqn:Hr; [contradiction|].
  cbn [Wifi.is_empty snd]. apply lookup_insert_eq.
Qed.

(** wigle.py after a page, and after a 429. *)
Lemma wigle_loop_page (name : string) (max_retries retry_delay : nat)
    (body : json) (rs : list pd.record) (rest : list outcome)
    (fs : gmap string file) (st : Wigle.state) :
  Wigle.retries st < max_retries ->
  results body = Some rs ->
  Wigle.loop name max_retries retry_delay (Response 200 (Some body) :: rest) fs st
  = (Wigle.Returned Saved
       (Wigle.emit (ToCsv rs true)
          (Wigle.emit (Print (Table (pd.DataFrame_of rs)))
             (Wigle.emit (Get None) st))),
     <[name := pd.to_csv (pd.DataFrame_of rs) true]> fs).
Proof.
  intros Hlt Hrs. simpl.
  destruct (Nat.ltb_spec (Wigle.retries st) max_retries); [|lia].
  destruct body as [r t]. simpl in Hrs. subst r. reflexivity.
Qed.

Lemma wigle_loop_429 (name : string) (max_retries retry_delay : nat)
    (body : option json) (rest : list outcome)
    (fs : gmap string file) (st : Wigle.state) :
  Wigle.retries st < max_retries ->
  Wigle.loop name max_retries retry_delay (Response 429 body :: rest) fs st
  = Wigle.loop name max_retries retry_delay rest fs
      (Wigle.add_retry
         (Wigle.emit (Sleep retry_delay)
            (Wigle.emit (Print TooManyRequestsWaiting)
               (Wigle.emit (Get None) st)))).
Proof.
  intros Hlt. simpl.
  destruct (Nat.ltb_spec (Wigle.retries st) max_retries); [|lia].
  reflexivity.
Qed.

(** *** C1: when the loop stops *)

(** C1, as stated, fails on wigle.py: its session is over after the first
    page, here 1 result out of 2, with one request sent, no retry used and
    no failure; the second page is never asked for. *)
Lemma C1_wigle_stops_after_first_page :
  (Wigle.send_request Ex.str ∅ [Ex.page ["a"] 2; Ex.page ["b"] 2]
     "47.2" "47.3" "-122.5" "-122.4" "tacoma" 3 60).1
  = Wigle.Returned Saved
      {| Wigle.retries := 0;
         Wigle.log := [Get None;
                       Print (Table (pd.DataFrame_of [Ex.obs "a"]));
                       ToCsv [Ex.obs "a"] true] |}
  /\ (Z.of_nat (length [Ex.obs "a"]) < 2)%Z.
Proof.
  split; [reflexivity|]. simpl. lia.
Qed.

(** C1 (amended): the loop of bluetooth.py (which is also the loop of
    BluetoothCellularWiFi.py) stops only when [current_count >= total_count],
    or on an answer on which it gives up (a status other than 200, too many
    redirects, an unexpected exception, a body it cannot read), or when
    [retries] has reached [MAX_RETRIES]; after a page that leaves
    [current_count < total_count] its next effect is a request whose
    [start] is the new [current_count].  wigle.py has no pagination: its
    session is over once the first page is written. *)
Theorem C1_loop_exits :
  (forall (server : list outcome) (st st' : Bluetooth.state) (why : exit),
      Bluetooth.loop server st = Bluetooth.Returned why st' ->
      (why = Completed /\
       exists t, Bluetooth.total_count st' = Some t /\
                 (t <= Z.of_nat (Bluetooth.current_count st'))%Z)
      \/ (why = Exhausted /\ Bluetooth.MAX_RETRIES <= Bluetooth.retries st')
      \/ (why <> Completed /\ why <> Exhausted /\ why <> Saved /\
          exists o, o ∈ server /\ gives_up o why))
  /\
  (forall (st : Bluetooth.state) (body : json) (rs : list pd.record) (t : Z)
          (rest : list outcome),
      Bluetooth.retries st < Bluetooth.MAX_RETRIES ->
      results body = Some rs ->
      match Bluetooth.total_count st with
      | None => totalResults body
      | Some t' => Some t'
      end = Some t ->
      (Z.of_nat (Bluetooth.current_count st + length rs) < t)%Z ->
      exists st1 l,
        Bluetooth.loop (Response 200 (Some body) :: rest) st
        = Bluetooth.loop rest st1
        /\ Bluetooth.current_count st1 = Bluetooth.current_count st + length rs
        /\ Bluetooth.log (Bluetooth.state_of (Bluetooth.loop rest st1))
           = Bluetooth.log st1
             ++ Get (Some (Bluetooth.current_count st + length rs)) :: l)
  /\
  (forall (float : Type) (str_float : float -> string) (fs : gmap string file)
          (body : json) (rs : list pd.record) (rest : list outcome)
          (latrange1 latrange2 longrange1 longrange2 : float)
          (location : string) (max_retries retry_delay : nat),
      0 < max_retries ->
      results body = Some rs ->
      Wigle.send_request str_float fs (Response 200 (Some body) :: rest)
        latrange1 latrange2 longrange1 longrange2 location max_retries retry_delay
      = (Wigle.Returned Saved
           {| Wigle.retries := 0;
              Wigle.log := [Get None; Print (Table (pd.DataFrame_of rs));
                            ToCsv rs true] |},
         <[Wigle.filename str_float location latrange1 longrange1
           := pd.to_csv (pd.DataFrame_of rs) true]> fs)).
Proof.
  split; [|split].
  - intros server st st' why. apply loop_returned.
  - intros st body rs t rest Hlt Hrs Ht Hless.
    pose (st2 := Bluetooth.write rs
                   (Bluetooth.emit
                      (Print (Retrieved (Bluetooth.current_count st + length rs) t))
                      (Bluetooth.set_total t
                         (Bluetooth.add_count (length rs)
                            (Bluetooth.emit (Get (Bluetooth.start st)) st))))).
    pose (st1 := Bluetooth.emit (Sleep Bluetooth.REQUEST_DELAY)
                   (Bluetooth.set_start st2)).
    destruct (loop_log rest st1) as [l Hl].
    exists st1, l. split; [|split].
    + simpl. destruct (Nat.ltb_spec (Bluetooth.retries st) Bluetooth.MAX_RETRIES);
        [|lia].
      rewrite Hrs, Ht.
      destruct (Z.leb_spec t (Z.of_nat (Bluetooth.current_count st + length rs)));
        [lia|]. reflexivity.
    + reflexivity.
    + rewrite Hl.
      assert (Hr : Bluetooth.retries st1 = Bluetooth.retries st) by reflexivity.
      rewrite Hr.
      destruct (Nat.ltb_spec (Bluetooth.retries st) Bluetooth.MAX_RETRIES); [|lia].
      reflexivity.
  - intros float str_float fs body rs rest lat1 lat2 lon1 lon2 location
      max_retries retry_delay Hpos Hrs.
    unfold Wigle.send_request.
    rewrite (wigle_loop_page _ _ _ body rs) by (simpl; assumption).
    reflexivity.
Qed.

(** The three parts at work: two pages of 1 result for a total of 2, and
    the same server for wigle.py. *)
Lemma C1_loop_exits_witness :
  ((Completed = Completed /\
    exists t, Some 2%Z = Some t /\ (t <= Z.of_nat 2)%Z)
   \/ (Completed = Exhausted /\ Bluetooth.MAX_RETRIES <= 0)
   \/ (Completed <> Completed /\ Completed <> Exhausted /\ Completed <> Saved /\
       exists o, o ∈ [Ex.page ["a"] 2; Ex.page ["b"] 2] /\ gives_up o Completed))
  /\
  (exists st1 l,
      Bluetooth.loop [Ex.page ["a"] 2; Ex.page ["b"] 2] (Bluetooth.init [])
      = Bluetooth.loop [Ex.page ["b"] 2] st1
      /\ Bluetooth.current_count st1 = 0 + 1
      /\ Bluetooth.log (Bluetooth.state_of (Bluetooth.loop [Ex.page ["b"] 2] st1))
         = Bluetooth.log st1 ++ Get (Some (0 + 1)) :: l)
  /\
  Wigle.send_request Ex.str ∅ [Ex.page ["a"] 2; Ex.page ["b"] 2]
    "47.2" "47.3" "-122.5" "-122.4" "tacoma" 3 60
  = (Wigle.Returned Saved
       {| Wigle.retries := 0;
          Wigle.log := [Get None; Print (Table (pd.DataFrame_of [Ex.obs "a"]));
                        ToCsv [Ex.obs "a"] true] |},
     <[Wigle.filename Ex.str "tacoma" "47.2" "-122.5"
       := pd.to_csv (pd.DataFrame_of [Ex.obs "a"]) true]> ∅).
Proof.
  split; [|split].
  - apply (proj1 C1_loop_exits [Ex.page ["a"] 2; Ex.page ["b"] 2]
             (Bluetooth.init [])
             (Bluetooth.state_of
                (Bluetooth.loop [Ex.page ["a"] 2; Ex.page ["b"] 2]
                   (Bluetooth.init [])))).
    vm_compute. reflexivity.
  - apply (proj1 (proj2 C1_loop_exits) (Bluetooth.init [])
             {| results := Some [Ex.obs "a"]; totalResults := Some 2%Z |}
             [Ex.obs "a"] 2%Z [Ex.page ["b"] 2]).
    + unfold Bluetooth.MAX_RETRIES. simpl. lia.
    + reflexivity.
    + reflexivity.
    + simpl. lia.
  - apply (proj2 (proj2 C1_loop_exits) string Ex.str ∅
             {| results := Some [Ex.obs "a"]; totalResults := Some 2%Z |}
             [Ex.obs "a"] [Ex.page ["b"] 2]).
    + lia.
    + reflexivity.
Defined.

(** *** C2: status 429 *)

(** C2, as stated, fails on wigle.py: after a 429 it sleeps and sends the
    same request again; two 429 in a row leave it waiting for the answer to
    a third request, with two retries counted. *)
Lemma C2_wigle_retries_after_429 :
  (Wigle.send_request Ex.str ∅ [Response 429 None; Response 429 None]
     "47.2" "47.3" "-122.5" "-122.4" "tacoma" 3 60).1
  = Wigle.Waiting
      {| Wigle.retries := 2;
         Wigle.log := [Get None; Print TooManyRequestsWaiting; Sleep 60;
                       Get None; Print TooManyRequestsWaiting; Sleep 60;
                       Get None] |}.
Proof. reflexivity. Qed.

(** C2 (amended): in bluetooth.py and in wifi.py a 429 ends the loop at
    once, without another request.  bluetooth.py leaves its file as it was
    when the 429 came and prints that the results are saved; wifi.py leaves
    the loop for its saving step, which writes all the results received so
    far.  wigle.py does retry: it sleeps [retry_delay], counts one retry and
    sends the request again. *)
Theorem C2_rate_limited :
  (forall (float : Type) (str_float : float -> string) (now : Py.datetime)
          (fs fs1 : gmap string file) (pre rest : list outcome)
          (body : option json)
          (latrange1 latrange2 longrange1 longrange2 : float)
          (st1 : Bluetooth.state),
      Bluetooth.send_request str_float now fs pre
        latrange1 latrange2 longrange1 longrange2 = (Bluetooth.Waiting st1, fs1) ->
      Bluetooth.send_request str_float now fs (pre ++ Response 429 body :: rest)
        latrange1 latrange2 longrange1 longrange2
      = (Bluetooth.Returned RateLimited
           (Bluetooth.emit (Print (AllRetrieved (Bluetooth.current_count st1)))
              (Bluetooth.emit (Print TooManyRequestsSaving) st1)),
         fs1))
  /\
  (forall (float : Type) (str_float : float -> string) (now : Py.datetime)
          (fs fs1 : gmap string file) (pre rest : list outcome)
          (body : option json)
          (latrange1 latrange2 longrange1 longrange2 : float)
          (location : string) (request_delay max_retries : nat)
          (st1 : Wifi.state),
      Wifi.send_request str_float now fs pre
        latrange1 latrange2 longrange1 longrange2 location
        request_delay max_retries = (Wifi.Waiting st1, fs1) ->
      Wifi.total_results st1 <> [] ->
      exists st2 fs2,
        Wifi.send_request str_float now fs (pre ++ Response 429 body :: rest)
          latrange1 latrange2 longrange1 longrange2 location
          request_delay max_retries = (Wifi.Left RateLimited st2, fs2)
        /\ gets (Wifi.log st2) = gets (Wifi.log st1)
        /\ fs2 !! Wifi.filename str_float location latrange1 longrange1 now
           = Some (default []
                     (fs !! Wifi.filename str_float location latrange1 longrange1 now)
                   ++ pd.to_csv (pd.DataFrame_of (Wifi.total_results st1))
                        (negb (bool_decide
                                 (is_Some
                                    (fs !! Wifi.filename str_float location
                                             latrange1 longrange1 now))))))
  /\
  (forall (name : string) (max_retries retry_delay : nat) (body : option json)
          (rest : list outcome) (fs : gmap string file) (st : Wigle.state),
      Wigle.retries st < max_retries ->
      Wigle.loop name max_retries retry_delay (Response 429 body :: rest) fs st
      = Wigle.loop name max_retries retry_delay rest fs
          (Wigle.add_retry
             (Wigle.emit (Sleep retry_delay)
                (Wigle.emit (Print TooManyRequestsWaiting)
                   (Wigle.emit (Get None) st))))).
Proof.
  split; [|split].
  - intros float str_float now fs fs1 pre rest body lat1 lat2 lon1 lon2 st1 Hpre.
    apply (send_request_stopped str_float now fs fs1 pre rest
             (Response 429 body) lat1 lat2 lon1 lon2 st1 RateLimited
             TooManyRequestsSaving); [|exact Hpre].
    intros st. apply iteration_429.
  - intros float str_float now fs fs1 pre rest body lat1 lat2 lon1 lon2
      location request_delay max_retries st1 Hpre Hne.
    apply wifi_send_request_waiting in Hpre as [Hloop ->].
    unfold Wifi.send_request.
    rewrite (wifi_loop_app _ _ _ (Response 429 body) rest _ _ Hloop).
    cbn [Wifi.iteration Z.eqb Pos.eqb].
    pose proof (save_lookup str_float now fs location lat1 lon1
                  (Wifi.emit (Print TooManyRequestsSaving) st1) Hne) as Hsave.
    unfold Wifi.save in *. cbn [Wifi.total_results Wifi.emit] in *.
    destruct (Wifi.total_results st1) eqn:Hr; [contradiction|].
    cbn [Wifi.is_empty snd] in *.
    eexists _, _. split; [reflexivity|]. split; [|exact Hsave].
    cbn [Wifi.log Wifi.emit]. rewrite !gets_app. simpl.
    now rewrite !app_nil_r.
  - intros. now apply wigle_loop_429.
Qed.

(** A 429 after a first page of 1 result out of 2, for each script. *)
Lemma C2_rate_limited_witness :
  Bluetooth.send_request Ex.str Ex.now ∅ (Ex.first_page ++ [Response 429 None])
    "47.2" "47.3" "-122.5" "-122.4"
  = (Bluetooth.Returned RateLimited
       (Bluetooth.emit
          (Print (AllRetrieved
                    (Bluetooth.current_count
                       (Bluetooth.state_of Ex.bluetooth_waiting.1))))
          (Bluetooth.emit (Print TooManyRequestsSaving)
             (Bluetooth.state_of Ex.bluetooth_waiting.1))),
     Ex.bluetooth_waiting.2)
  /\
  (exists st2 fs2,
      Wifi.send_request Ex.str Ex.now ∅ (Ex.first_page ++ [Response 429 None])
        "47.2" "47.3" "-122.5" "-122.4" "tacoma" 5 3
      = (Wifi.Left RateLimited st2, fs2)
      /\ gets (Wifi.log st2) = gets (Wifi.log (wifi_state_of Ex.wifi_waiting.1))
      /\ fs2 !! Wifi.filename Ex.str "tacoma" "47.2" "-122.5" Ex.now
         = Some (default []
                   ((∅ : gmap string file)
                      !! Wifi.filename Ex.str "tacoma" "47.2" "-122.5" Ex.now)
                 ++ pd.to_csv
                      (pd.DataFrame_of
                         (Wifi.total_results (wifi_state_of Ex.wifi_waiting.1)))
                      (negb (bool_decide
                               (is_Some
                                  ((∅ : gmap string file)
                                     !! Wifi.filename Ex.str "tacoma" "47.2"
                                          "-122.5" Ex.now))))))
  /\
  Wigle.loop "tests/tacoma_47.2_-122.5.csv" 3 60 [Response 429 None] ∅
    {| Wigle.retries := 0; Wigle.log := [] |}
  = Wigle.loop "tests/tacoma_47.2_-122.5.csv" 3 60 [] ∅
      (Wigle.add_retry
         (Wigle.emit (Sleep 60)
            (Wigle.emit (Print TooManyRequestsWaiting)
               (Wigle.emit (Get None)
                  {| Wigle.retries := 0; Wigle.log := [] |})))).
Proof.
  split; [|split].
  - apply (proj1 C2_rate_limited string Ex.str Ex.now ∅ Ex.bluetooth_waiting.2
             Ex.first_page [] None "47.2" "47.3" "-122.5" "-122.4"
             (Bluetooth.state_of Ex.bluetooth_waiting.1)).
    reflexivity.
  - apply (proj1 (proj2 C2_rate_limited) string Ex.str Ex.now ∅ Ex.wifi_waiting.2
             Ex.first_page [] None "47.2" "47.3" "-122.5" "-122.4" "tacoma" 5 3
             (wifi_state_of Ex.wifi_waiting.1)).
    + reflexivity.
    + discriminate.
  - apply (proj2 (proj2 C2_rate_limited)). simpl. lia.
Defined.

(** *** C3: status 401 and the other error statuses *)

(** C3, as stated, fails on wifi.py: a 401 after a first page ends the
    function inside the loop, so that the page received is written
    nowhere: the file system is left empty. *)
Lemma C3_wifi_discards_on_401 :
  Wifi.send_request Ex.str Ex.now ∅ (Ex.first_page ++ [Response 401 None])
    "47.2" "47.3" "-122.5" "-122.4" "tacoma" 5 3
  = (Wifi.Returned Unauthorized
       (Wifi.emit (Print UnauthorizedMsg) (wifi_state_of Ex.wifi_waiting.1)),
     ∅)
  /\ Wifi.total_results (wifi_state_of Ex.wifi_waiting.1) = [Ex.obs "a"].
Proof. split; reflexivity. Qed.

(** C3 (amended): on a status that is neither 200 nor 429 (401 included)
    bluetooth.py and wifi.py stop at once and print the condition.
    bluetooth.py leaves its file as it was when the answer came, so that
    every batch written before is kept; wifi.py returns without saving:
    the file system is what it was before the session. *)
Theorem C3_error_status :
  (forall (float : Type) (str_float : float -> string) (now : Py.datetime)
          (fs fs1 : gmap string file) (pre rest : list outcome)
          (status_code : Z) (body : option json)
          (latrange1 latrange2 longrange1 longrange2 : float)
          (st1 : Bluetooth.state),
      status_code <> 200%Z -> status_code <> 429%Z ->
      Bluetooth.send_request str_float now fs pre
        latrange1 latrange2 longrange1 longrange2 = (Bluetooth.Waiting st1, fs1) ->
      Bluetooth.send_request str_float now fs
        (pre ++ Response status_code body :: rest)
        latrange1 latrange2 longrange1 longrange2
      = (Bluetooth.Returned (error_exit status_code)
           (Bluetooth.emit (Print (AllRetrieved (Bluetooth.current_count st1)))
              (Bluetooth.emit (Print (error_message status_code)) st1)),
         fs1))
  /\
  (forall (float : Type) (str_float : float -> string) (now : Py.datetime)
          (fs fs1 : gmap string file) (pre rest : list outcome)
          (status_code : Z) (body : option json)
          (latrange1 latrange2 longrange1 longrange2 : float)
          (location : string) (request_delay max_retries : nat)
          (st1 : Wifi.state),
      status_code <> 200%Z -> status_code <> 429%Z ->
      Wifi.send_request str_float now fs pre
        latrange1 latrange2 longrange1 longrange2 location
        request_delay max_retries = (Wifi.Waiting st1, fs1) ->
      Wifi.send_request str_float now fs
        (pre ++ Response status_code body :: rest)
        latrange1 latrange2 longrange1 longrange2 location
        request_delay max_retries
      = (Wifi.Returned (error_exit status_code)
           (Wifi.emit (Print (error_message status_code)) st1),
         fs)).
Proof.
  split.
  - intros float str_float now fs fs1 pre rest status_code body
      lat1 lat2 lon1 lon2 st1 H200 H429 Hpre.
    apply (send_request_stopped str_float now fs fs1 pre rest
             (Response status_code body) lat1 lat2 lon1 lon2 st1
             (error_exit status_code) (error_message status_code));
      [|exact Hpre].
    intros st. now apply iteration_error.
  - intros float str_float now fs fs1 pre rest status_code body
      lat1 lat2 lon1 lon2 location request_delay max_retries st1
      H200 H429 Hpre.
    apply wifi_send_request_waiting in Hpre as [Hloop ->].
    unfold Wifi.send_request.
    rewrite (wifi_loop_app _ _ _ (Response status_code body) rest _ _ Hloop).
    rewrite wifi_iteration_error by assumption. reflexivity.
Qed.

(** A 401 for bluetooth.py and a 500 for wifi.py, each after a first page
    of 1 result out of 2. *)
Lemma C3_error_status_witness :
  Bluetooth.send_request Ex.str Ex.now ∅ (Ex.first_page ++ [Response 401 None])
    "47.2" "47.3" "-122.5" "-122.4"
  = (Bluetooth.Returned (error_exit 401)
       (Bluetooth.emit
          (Print (AllRetrieved
                    (Bluetooth.current_count
                       (Bluetooth.state_of Ex.bluetooth_waiting.1))))
          (Bluetooth.emit (Print (error_message 401))
             (Bluetooth.state_of Ex.bluetooth_waiting.1))),
     Ex.bluetooth_waiting.2)
  /\
  Wifi.send_request Ex.str Ex.now ∅ (Ex.first_page ++ [Response 500 None])
    "47.2" "47.3" "-122.5" "-122.4" "tacoma" 5 3
  = (Wifi.Returned (error_exit 500)
       (Wifi.emit (Print (error_message 500))
          (wifi_state_of Ex.wifi_waiting.1)),
     ∅).
Proof.
  split.
  - apply (proj1 C3_error_status string Ex.str Ex.now ∅ Ex.bluetooth_waiting.2
             Ex.first_page [] 401%Z None "47.2" "47.3" "-122.5" "-122.4"
             (Bluetooth.state_of Ex.bluetooth_waiting.1));
      [discriminate|discriminate|reflexivity].
  - apply (proj2 C3_error_status string Ex.str Ex.now ∅ Ex.wifi_waiting.2
             Ex.first_page [] 500%Z None "47.2" "47.3" "-122.5" "-122.4"
             "tacoma" 5 3 (wifi_state_of Ex.wifi_waiting.1));
      [discriminate|discriminate|reflexivity].
Defined.

(** *** C4: the cursor *)

(** The cursor after one iteration. *)
Lemma iteration_count (st : Bluetooth.state) (o : outcome) :
  Bluetooth.current_count (step_state (Bluetooth.iteration st o))
  = Bluetooth.current_count st + page_size o.
Proof.
  unfold Bluetooth.iteration, Bluetooth.on_success, page_size.
  outcome_cases o; cbn [results totalResults]; branch_cases; cbn; lia.
Qed.

Lemma loop_count (server : list outcome) (st : Bluetooth.state) :
  Bluetooth.current_count (Bluetooth.state_of (Bluetooth.loop server st))
  <= Bluetooth.current_count st + served server.
Proof.
  revert st. induction server as [|o server IH]; intros st; simpl.
  - destruct (Bluetooth.retries st <? Bluetooth.MAX_RETRIES); simpl; lia.
  - destruct (Bluetooth.retries st <? Bluetooth.MAX_RETRIES); simpl; [|lia].
    pose proof (iteration_count (Bluetooth.emit (Get (Bluetooth.start st)) st) o)
      as Hc.
    destruct (Bluetooth.iteration _ o) as [st1|why1 st1]; simpl in Hc.
    + pose proof (IH st1). lia.
    + simpl. lia.
Qed.

Lemma wifi_iteration_count (request_delay : nat) (st : Wifi.state) (o : outcome) :
  Wifi.current_count (wifi_step_state (Wifi.iteration request_delay st o))
  = Wifi.current_count st + page_size o.
Proof.
  unfold Wifi.iteration, Wifi.on_success, page_size.
  outcome_cases o; cbn [results totalResults]; branch_cases; cbn; lia.
Qed.

Lemma wifi_loop_count (request_delay max_retries : nat)
    (server : list outcome) (st : Wifi.state) :
  Wifi.current_count
    (wifi_state_of (Wifi.loop request_delay max_retries server st))
  <= Wifi.current_count st + served server.
Proof.
  revert st. induction server as [|o server IH]; intros st; simpl.
  - destruct (Wifi.retries st <? max_retries); simpl; lia.
  - destruct (Wifi.retries st <? max_retries); simpl; [|lia].
    pose proof (wifi_iteration_count request_delay
                  (Wifi.emit (Get (Wifi.start st)) st) o) as Hc.
    destruct (Wifi.iteration _ _ o) as [st1|why1 st1|why1 st1]; simpl in Hc.
    + pose proof (IH st1). lia.
    + simpl. lia.
    + simpl. lia.
Qed.

(** C4, as stated, fails: an empty page leaves [current_count] where it
    was (the first answer to a query without results, total 0), and a page
    longer than the total takes it past the total (2 results for a total
    of 1). *)
Lemma C4_cursor_not_strict_nor_bounded :
  Bluetooth.iteration (Bluetooth.init []) (Ex.page [] 0)
  = Bluetooth.Break Completed
      (step_state (Bluetooth.iteration (Bluetooth.init []) (Ex.page [] 0)))
  /\
  Bluetooth.current_count
    (step_state (Bluetooth.iteration (Bluetooth.init []) (Ex.page [] 0)))
  = Bluetooth.current_count (Bluetooth.init [])
  /\
  (Bluetooth.total_count
     (step_state (Bluetooth.iteration (Bluetooth.init []) (Ex.page ["a"; "b"] 1)))
   = Some 1%Z /\
   Bluetooth.current_count
     (step_state (Bluetooth.iteration (Bluetooth.init []) (Ex.page ["a"; "b"] 1)))
   = 2).
Proof. repeat split; reflexivity. Qed.

(** C4 (amended): in bluetooth.py and in wifi.py a 200 answer that carries
    results adds exactly their number to [current_count], which therefore
    grows strictly when the page is not empty; a total that is known is
    never changed; [current_count <= total_count] holds after a page that
    is not longer than what was left to retrieve, and so at every point of
    a session whose server holds no more results in its pages than the
    total: the scripts do not bound [current_count] themselves. *)
Theorem C4_cursor_advances :
  (forall (st : Bluetooth.state) (body : json) (rs : list pd.record),
      results body = Some rs ->
      let st' := step_state (Bluetooth.iteration st (Response 200 (Some body))) in
      Bluetooth.current_count st' = Bluetooth.current_count st + length rs
      /\ (rs <> [] -> Bluetooth.current_count st < Bluetooth.current_count st')
      /\ (forall t, Bluetooth.total_count st = Some t ->
                    Bluetooth.total_count st' = Some t)
      /\ (forall t, Bluetooth.total_count st' = Some t ->
                    (Z.of_nat (Bluetooth.current_count st)
                     + Z.of_nat (length rs) <= t)%Z ->
                    (Z.of_nat (Bluetooth.current_count st') <= t)%Z))
  /\
  (forall (server : list outcome) (f0 : file) (t : Z),
      let st' := Bluetooth.state_of (Bluetooth.loop server (Bluetooth.init f0)) in
      Bluetooth.total_count st' = Some t ->
      (Z.of_nat (served server) <= t)%Z ->
      (Z.of_nat (Bluetooth.current_count st') <= t)%Z)
  /\
  (forall (request_delay : nat) (st : Wifi.state) (body : json)
          (rs : list pd.record),
      results body = Some rs ->
      let st' := wifi_step_state
                   (Wifi.iteration request_delay st (Response 200 (Some body))) in
      Wifi.current_count st' = Wifi.current_count st + length rs
      /\ (rs <> [] -> Wifi.current_count st < Wifi.current_count st')
      /\ (forall t, Wifi.total_count st = Some t -> Wifi.total_count st' = Some t)
      /\ (forall t, Wifi.total_count st' = Some t ->
                    (Z.of_nat (Wifi.current_count st)
                     + Z.of_nat (length rs) <= t)%Z ->
                    (Z.of_nat (Wifi.current_count st') <= t)%Z))
  /\
  (forall (request_delay max_retries : nat) (server : list outcome) (t : Z),
      let st' := wifi_state_of
                   (Wifi.loop request_delay max_retries server Wifi.init) in
      Wifi.total_count st' = Some t ->
      (Z.of_nat (served server) <= t)%Z ->
      (Z.of_nat (Wifi.current_count st') <= t)%Z).
Proof.
  split; [|split; [|split]].
  - intros st body rs Hrs st'.
    assert (Hc : Bluetooth.current_count st'
                 = Bluetooth.current_count st + length rs).
    { subst st'. rewrite iteration_count. unfold page_size.
      simpl (200 =? 200)%Z. cbv iota. now rewrite Hrs. }
    split; [exact Hc|]. split; [|split].
    + intros Hne. rewrite Hc. destruct rs; [contradiction|simpl; lia].
    + intros t Ht. subst st'. unfold Bluetooth.iteration, Bluetooth.on_success.
      simpl (200 =? 200)%Z. cbv iota. rewrite Hrs.
      cbn [Bluetooth.total_count Bluetooth.add_count]. rewrite Ht.
      branch_cases; reflexivity.
    + intros t _ Hfit. rewrite Hc. lia.
  - intros server f0 t st' _ Hfit. subst st'.
    pose proof (loop_count server (Bluetooth.init f0)) as Hc. simpl in Hc. lia.
  - intros request_delay st body rs Hrs st'.
    assert (Hc : Wifi.current_count st' = Wifi.current_count st + length rs).
    { subst st'. rewrite wifi_iteration_count. unfold page_size.
      simpl (200 =? 200)%Z. cbv iota. now rewrite Hrs. }
    split; [exact Hc|]. split; [|split].
    + intros Hne. rewrite Hc. destruct rs; [contradiction|simpl; lia].
    + intros t Ht. subst st'. unfold Wifi.iteration, Wifi.on_success.
      simpl (200 =? 200)%Z. cbv iota. rewrite Hrs.
      cbn [Wifi.total_count Wifi.extend]. rewrite Ht.
      branch_cases; reflexivity.
    + intros t _ Hfit. rewrite Hc. lia.
  - intros request_delay max_retries server t st' _ Hfit. subst st'.
    pose proof (wifi_loop_count request_delay max_retries server Wifi.init) as Hc.
    simpl in Hc. lia.
Qed.

(** A first page of 2 results for a total of 5, and the session of three
    pages. *)
Lemma C4_cursor_advances_witness :
  (let st' := step_state
                (Bluetooth.iteration (Bluetooth.init []) (Ex.page ["a"; "b"] 5)) in
   Bluetooth.current_count st' = 0 + 2
   /\ (map Ex.obs ["a"; "b"] <> [] -> 0 < Bluetooth.current_count st')
   /\ (forall t, None = Some t -> Bluetooth.total_count st' = Some t)
   /\ (forall t, Bluetooth.total_count st' = Some t ->
                 (Z.of_nat 0 + Z.of_nat 2 <= t)%Z ->
                 (Z.of_nat (Bluetooth.current_count st') <= t)%Z))
  /\
  (Z.of_nat (Bluetooth.current_count
               (Bluetooth.state_of
                  (Bluetooth.loop Ex.three_pages (Bluetooth.init [])))) <= 5)%Z
  /\
  (let st' := wifi_step_state
                (Wifi.iteration 5 Wifi.init (Ex.page ["a"; "b"] 5)) in
   Wifi.current_count st' = 0 + 2
   /\ (map Ex.obs ["a"; "b"] <> [] -> 0 < Wifi.current_count st')
   /\ (forall t, None = Some t -> Wifi.total_count st' = Some t)
   /\ (forall t, Wifi.total_count st' = Some t ->
                 (Z.of_nat 0 + Z.of_nat 2 <= t)%Z ->
                 (Z.of_nat (Wifi.current_count st') <= t)%Z))
  /\
  (Z.of_nat (Wifi.current_count
               (wifi_state_of (Wifi.loop 5 3 Ex.three_pages Wifi.init))) <= 5)%Z.
Proof.
  split; [|split; [|split]].
  - apply (proj1 C4_cursor_advances (Bluetooth.init [])
             {| results := Some (map Ex.obs ["a"; "b"]);
                totalResults := Some 5%Z |}
             (map Ex.obs ["a"; "b"])).
    reflexivity.
  - apply (proj1 (proj2 C4_cursor_advances) Ex.three_pages [] 5%Z).
    + vm_compute. reflexivity.
    + vm_compute. discriminate.
  - apply (proj1 (proj2 (proj2 C4_cursor_advances)) 5 Wifi.init
             {| results := Some (map Ex.obs ["a"; "b"]);
                totalResults := Some 5%Z |}
             (map Ex.obs ["a"; "b"])).
    reflexivity.
  - apply (proj2 (proj2 (proj2 C4_cursor_advances)) 5 3 Ex.three_pages 5%Z).
    + vm_compute. reflexivity.
    + vm_compute. discriminate.
Defined.

(** *** C6: the retry counter *)

(** C6, as stated, fails: nothing resets [retries].  After a connection
    error and then a page, bluetooth.py waits for its next answer with
    [retries] still at 1. *)
Lemma C6_retries_not_reset :
  Bluetooth.retries
    (Bluetooth.state_of
       (Bluetooth.loop [Raise ConnectionError; Ex.page ["a"] 2]
          (Bluetooth.init [])))
  = 1.
Proof. reflexivity. Qed.

(** C6 (amended): in bluetooth.py and in wifi.py an iteration adds one to
    [retries] on a failure that the script retries (a
    timeout or a connection error in bluetooth.py, a connection error in
    wifi.py) and leaves it as it is on every other answer, a page
    included; the loop is left as exhausted exactly when [retries] has
    reached the bound. *)
Theorem C6_retry_counter :
  (forall (st : Bluetooth.state) (o : outcome),
      Bluetooth.retries (step_state (Bluetooth.iteration st o))
      = Bluetooth.retries st + (if transient o then 1 else 0))
  /\
  (forall (server : list outcome) (st st' : Bluetooth.state) (why : exit),
      Bluetooth.retries st <= Bluetooth.MAX_RETRIES ->
      Bluetooth.loop server st = Bluetooth.Returned why st' ->
      (why = Exhausted <-> Bluetooth.retries st' = Bluetooth.MAX_RETRIES))
  /\
  (forall (request_delay : nat) (st : Wifi.state) (o : outcome),
      Wifi.retries (wifi_step_state (Wifi.iteration request_delay st o))
      = Wifi.retries st + (if connection_error o then 1 else 0))
  /\
  (forall (request_delay max_retries : nat) (server : list outcome)
          (st st' : Wifi.state) (why : exit),
      Wifi.retries st <= max_retries ->
      Wifi.loop request_delay max_retries server st = Wifi.Left why st'
      \/ Wifi.loop request_delay max_retries server st = Wifi.Returned why st' ->
      (why = Exhausted <-> Wifi.retries st' = max_retries)).
Proof.
  split; [|split; [|split]].
  - apply iteration_retries.
  - intros server st st' why Hle Hloop.
    now apply (loop_retries server st st' why Hle).
  - apply wifi_iteration_retries.
  - intros request_delay max_retries server st st' why Hle Hloop.
    pose proof (wifi_loop_retries request_delay max_retries server st Hle) as H.
    destruct Hloop as [Hloop|Hloop]; rewrite Hloop in H; apply H.
Qed.

(** A timeout and a page as single answers; three failures in a row for
    bluetooth.py; one timeout for wifi.py. *)
Lemma C6_retry_counter_witness :
  (Bluetooth.retries
     (step_state (Bluetooth.iteration (Bluetooth.init []) (Raise ReadTimeout)))
   = 0 + (if transient (Raise ReadTimeout) then 1 else 0))
  /\
  (Exhausted = Exhausted
   <-> Bluetooth.retries
         (failed (Bluetooth.init [])
            [Raise ReadTimeout; Raise ConnectionError; Raise ConnectTimeout])
       = Bluetooth.MAX_RETRIES)
  /\
  (Wifi.retries
     (wifi_step_state (Wifi.iteration 5 Wifi.init (Ex.page ["a"] 2)))
   = 0 + (if connection_error (Ex.page ["a"] 2) then 1 else 0))
  /\
  (Failed = Exhausted
   <-> Wifi.retries (Wifi.emit (Print AnErrorOccurred)
                       (Wifi.emit (Get None) Wifi.init)) = 3).
Proof.
  split; [|split; [|split]].
  - apply (proj1 C6_retry_counter).
  - apply (proj1 (proj2 C6_retry_counter)
             [Raise ReadTimeout; Raise ConnectionError; Raise ConnectTimeout]
             (Bluetooth.init [])).
    + unfold Bluetooth.MAX_RETRIES. simpl. lia.
    + reflexivity.
  - apply (proj1 (proj2 (proj2 C6_retry_counter))).
  - apply (proj2 (proj2 (proj2 C6_retry_counter)) 5 3 [Raise ReadTimeout]
             Wifi.init).
    + simpl. lia.
    + right. reflexivity.
Defined.

(** *** C7: a server that only fails *)

(** C7, as stated, fails on wifi.py: a timeout that is not a connection
    error is not retried; the function returns after one request, without
    any sleep. *)
Lemma C7_wifi_gives_up_on_timeout :
  Wifi.send_request Ex.str Ex.now ∅
    [Raise ReadTimeout; Raise ReadTimeout; Raise ReadTimeout]
    "47.2" "47.3" "-122.5" "-122.4" "tacoma" 5 3
  = (Wifi.Returned Failed
       {| Wifi.total_results := []; Wifi.current_count := 0;
          Wifi.total_count := None; Wifi.retries := 0; Wifi.start := None;
          Wifi.log := [Print Retrieving; Get None; Print AnErrorOccurred] |},
     ∅).
Proof. reflexivity. Qed.

(** C7 (amended): when the answers are failures that the script retries
    (timeouts and connection errors in bluetooth.py, connection errors
    only in wifi.py), as many of them as the retries that are left
    ([MAX_RETRIES] of them when none was counted before), the loop makes
    exactly that many attempts, each with the same [start] and each
    followed by a sleep of the fixed delay, and is then left as exhausted
    without a further request; the counts, the file of bluetooth.py and
    the results held by wifi.py are what they were before the failures.
    In wifi.py a timeout that is not a connection error is not retried. *)
Theorem C7_retry_bound :
  (forall (st : Bluetooth.state) (os rest : list outcome),
      forallb transient os = true ->
      Bluetooth.retries st + length os = Bluetooth.MAX_RETRIES ->
      exists st',
        Bluetooth.loop (os ++ rest) st = Bluetooth.Returned Exhausted st'
        /\ Bluetooth.f st' = Bluetooth.f st
        /\ Bluetooth.current_count st' = Bluetooth.current_count st
        /\ Bluetooth.total_count st' = Bluetooth.total_count st
        /\ Bluetooth.log st'
           = Bluetooth.log st
             ++ flat_map (attempt Bluetooth.REQUEST_DELAY (Bluetooth.start st)) os)
  /\
  (forall (request_delay max_retries : nat) (st : Wifi.state)
          (os rest : list outcome),
      forallb connection_error os = true ->
      Wifi.retries st + length os = max_retries ->
      exists st',
        Wifi.loop request_delay max_retries (os ++ rest) st
        = Wifi.Left Exhausted st'
        /\ Wifi.total_results st' = Wifi.total_results st
        /\ Wifi.current_count st' = Wifi.current_count st
        /\ Wifi.total_count st' = Wifi.total_count st
        /\ Wifi.log st'
           = Wifi.log st
             ++ flat_map (fun _ => [Get (Wifi.start st);
                                    Print ConnectionErrorRetrying;
                                    Sleep request_delay]) os)
  /\
  (forall (request_delay : nat) (st : Wifi.state),
      Wifi.iteration request_delay st (Raise ReadTimeout)
      = Wifi.Return Failed (Wifi.emit (Print AnErrorOccurred) st)).
Proof.
  split; [|split].
  - intros st os rest Hall Hlen. exists (failed st os).
    rewrite loop_failed by (assumption || lia).
    rewrite loop_exhausted by (simpl; lia).
    repeat split.
  - intros request_delay max_retries st os rest Hall Hlen.
    exists (wifi_failed request_delay st os).
    rewrite wifi_loop_failed by (assumption || lia).
    rewrite wifi_loop_exhausted by (simpl; lia).
    repeat split.
  - reflexivity.
Qed.

(** Three failures in a row from the start of a session, a page being
    ready behind them. *)
Lemma C7_retry_bound_witness :
  (exists st',
      Bluetooth.loop
        ([Raise ReadTimeout; Raise ConnectionError; Raise ConnectTimeout]
         ++ [Ex.page ["a"] 1])
        (Bluetooth.init [])
      = Bluetooth.Returned Exhausted st'
      /\ Bluetooth.f st' = []
      /\ Bluetooth.current_count st' = 0
      /\ Bluetooth.total_count st' = None
      /\ Bluetooth.log st'
         = [Print Retrieving]
           ++ flat_map (attempt Bluetooth.REQUEST_DELAY None)
                [Raise ReadTimeout; Raise ConnectionError; Raise ConnectTimeout])
  /\
  (exists st',
      Wifi.loop 5 3
        ([Raise ConnectionError; Raise ConnectionError; Raise ConnectTimeout]
         ++ [Ex.page ["a"] 1])
        Wifi.init
      = Wifi.Left Exhausted st'
      /\ Wifi.total_results st' = []
      /\ Wifi.current_count st' = 0
      /\ Wifi.total_count st' = None
      /\ Wifi.log st'
         = [Print Retrieving]
           ++ flat_map (fun _ => [Get None; Print ConnectionErrorRetrying; Sleep 5])
                [Raise ConnectionError; Raise ConnectionError;
                 Raise ConnectTimeout]).
Proof.
  split.
  - apply (proj1 C7_retry_bound (Bluetooth.init [])
             [Raise ReadTimeout; Raise ConnectionError; Raise ConnectTimeout]
             [Ex.page ["a"] 1]); reflexivity.
  - apply (proj1 (proj2 C7_retry_bound) 5 3 Wifi.init
             [Raise ConnectionError; Raise ConnectionError; Raise ConnectTimeout]
             [Ex.page ["a"] 1]); reflexivity.
Defined.

(** *** C9: file names *)

Lemma digit_inj (n m : nat) : Py.digit n = Py.digit m -> n mod 10 = m mod 10.
Proof.
  unfold Py.digit. intros H. apply (f_equal nat_of_ascii) in H.
  pose proof (Nat.mod_upper_bound n 10). pose proof (Nat.mod_upper_bound m 10).
  rewrite !nat_ascii_embedding in H by lia. lia.
Qed.

Lemma two_digits (n m : nat) :
  n < 100 -> m < 100 ->
  (n / 10) mod 10 = (m / 10) mod 10 -> n mod 10 = m mod 10 -> n = m.
Proof.
  intros Hn Hm H1 H0.
  assert (n / 10 mod 10 = n / 10)
    by (apply Nat.mod_small, Nat.Div0.div_lt_upper_bound; lia).
  assert (m / 10 mod 10 = m / 10)
    by (apply Nat.mod_small, Nat.Div0.div_lt_upper_bound; lia).
  pose proof (Nat.div_mod_eq n 10). pose proof (Nat.div_mod_eq m 10). lia.
Qed.

Lemma four_digits (n m : nat) :
  n < 100 * 100 -> m < 100 * 100 ->
  (n / 1000) mod 10 = (m / 1000) mod 10 ->
  (n / 100) mod 10 = (m / 100) mod 10 ->
  (n / 10) mod 10 = (m / 10) mod 10 -> n mod 10 = m mod 10 -> n = m.
Proof.
  intros Hn Hm H3 H2 H1 H0.
  assert (n / 1000 mod 10 = n / 1000)
    by (apply Nat.mod_small, Nat.Div0.div_lt_upper_bound; lia).
  assert (m / 1000 mod 10 = m / 1000)
    by (apply Nat.mod_small, Nat.Div0.div_lt_upper_bound; lia).
  pose proof (Nat.div_mod_eq n 10). pose proof (Nat.div_mod_eq m 10).
  pose proof (Nat.div_mod_eq (n / 10) 10). pose proof (Nat.div_mod_eq (m / 10) 10).
  pose proof (Nat.div_mod_eq (n / 100) 10).
  pose proof (Nat.div_mod_eq (m / 100) 10).
  rewrite !Nat.Div0.div_div in *. simpl in *. lia.
Qed.

(** The text of the time tells the second. *)
Lemma strftime_same_second (t t' : Py.datetime) (s s' : string) :
  Py.valid t -> Py.valid t' ->
  Py.strftime t +:+ s = Py.strftime t' +:+ s' -> same_second t t'.
Proof.
  intros (Hy & Hmo & Hd & Hh & Hmi & Hs) (Hy' & Hmo' & Hd' & Hh' & Hmi' & Hs').
  cbv [Py.strftime Py.pad4 Py.pad2 String.append].
  intros H. injection H as ?%digit_inj ?%digit_inj ?%digit_inj ?%digit_inj
    ?%digit_inj ?%digit_inj ?%digit_inj ?%digit_inj
    ?%digit_inj ?%digit_inj ?%digit_inj ?%digit_inj ?%digit_inj ?%digit_inj _.
  unfold same_second.
  repeat split;
    [apply four_digits; assumption || lia
    |apply two_digits; assumption || lia..].
Qed.

Lemma same_second_strftime (t t' : Py.datetime) :
  same_second t t' -> Py.strftime t = Py.strftime t'.
Proof.
  intros (Hy & Hmo & Hd & Hh & Hmi & Hs). unfold Py.strftime.
  now rewrite Hy, Hmo, Hd, Hh, Hmi, Hs.
Qed.

(** The file of bluetooth.py only grows. *)
Lemma iteration_file (st : Bluetooth.state) (o : outcome) :
  exists l, Bluetooth.f (step_state (Bluetooth.iteration st o))
            = Bluetooth.f st ++ l.
Proof.
  unfold Bluetooth.iteration, Bluetooth.on_success.
  outcome_cases o; cbn [results totalResults]; branch_cases; cbn;
    eauto; exists []; now rewrite app_nil_r.
Qed.

Lemma loop_file (server : list outcome) (st : Bluetooth.state) :
  exists l, Bluetooth.f (Bluetooth.state_of (Bluetooth.loop server st))
            = Bluetooth.f st ++ l.
Proof.
  revert st. induction server as [|o server IH]; intros st; simpl.
  - destruct (Bluetooth.retries st <? Bluetooth.MAX_RETRIES); simpl;
      exists []; now rewrite app_nil_r.
  - destruct (Bluetooth.retries st <? Bluetooth.MAX_RETRIES); simpl.
    + destruct (iteration_file (Bluetooth.emit (Get (Bluetooth.start st)) st) o)
        as [l Hl].
      destruct (Bluetooth.iteration _ o) as [st1|why1 st1]; simpl in Hl.
      * destruct (IH st1) as [l' Hl']. rewrite Hl', Hl, <- app_assoc. eauto.
      * simpl. eauto.
    + exists []. now rewrite app_nil_r.
Qed.

Lemma finish_file (r : Bluetooth.run) :
  Bluetooth.f (Bluetooth.state_of (Bluetooth.finish r))
  = Bluetooth.f (Bluetooth.state_of r).
Proof. destruct r; reflexivity. Qed.

(** C9, as stated, fails.  wigle.py puts no time in the name of its file
    and replaces the file: a second session with the same arguments
    leaves only its own rows.  And the time in the names of bluetooth.py
    stops at the second: two sessions started at two moments of one second
    get the same name. *)
Lemma C9_names_collide :
  (Ex.wigle_first.2 !! Wigle.filename Ex.str "tacoma" "47.2" "-122.5"
   = Some [["trilat"; "trilong"; "id"]; ["47.25"; "-122.45"; "a"]]
   /\
   Ex.wigle_second.2 !! Wigle.filename Ex.str "tacoma" "47.2" "-122.5"
   = Some [["trilat"; "trilong"; "id"]; ["47.25"; "-122.45"; "b"]])
  /\
  (Ex.now <> Ex.same_second /\
   Bluetooth.filename Ex.str "47.2" "-122.5" Ex.now
   = Bluetooth.filename Ex.str "47.2" "-122.5" Ex.same_second).
Proof.
  split; split; try reflexivity. discriminate.
Qed.

(** C9 (amended): bluetooth.py, BluetoothCellularWiFi.py and wifi.py name
    their file from a part of the query (the lower bounds, the location,
    the endpoint) and the time to the second, so that two sessions with
    the same arguments get the same name exactly when their times fall in
    the same second; bluetooth.py and wifi.py only append to a file that
    is there already.  wigle.py names its file from the location and the
    lower bounds alone and replaces its content. *)
Theorem C9_file_names :
  (forall (float : Type) (str_float : float -> string)
          (latrange1 longrange1 : float) (location api_endpoint : string)
          (t t' : Py.datetime),
      Py.valid t -> Py.valid t' ->
      (Bluetooth.filename str_float latrange1 longrange1 t
       = Bluetooth.filename str_float latrange1 longrange1 t'
       <-> same_second t t')
      /\ (BluetoothCellularWiFi.filename api_endpoint t
          = BluetoothCellularWiFi.filename api_endpoint t'
          <-> same_second t t')
      /\ (Wifi.filename str_float location latrange1 longrange1 t
          = Wifi.filename str_float location latrange1 longrange1 t'
          <-> same_second t t'))
  /\
  (forall (float : Type) (str_float : float -> string) (now : Py.datetime)
          (fs fs' : gmap string file) (server : list outcome)
          (latrange1 latrange2 longrange1 longrange2 : float)
          (r : Bluetooth.run),
      Bluetooth.send_request str_float now fs server
        latrange1 latrange2 longrange1 longrange2 = (r, fs') ->
      exists l,
        fs' = <[Bluetooth.filename str_float latrange1 longrange1 now
                := default []
                     (fs !! Bluetooth.filename str_float latrange1 longrange1 now)
                   ++ l]> fs)
  /\
  (forall (float : Type) (str_float : float -> string) (now : Py.datetime)
          (fs fs' : gmap string file) (server : list outcome)
          (latrange1 latrange2 longrange1 longrange2 : float)
          (location : string) (request_delay max_retries : nat)
          (r : Wifi.run),
      Wifi.send_request str_float now fs server
        latrange1 latrange2 longrange1 longrange2 location
        request_delay max_retries = (r, fs') ->
      fs' = fs \/
      exists l,
        fs' = <[Wifi.filename str_float location latrange1 longrange1 now
                := default []
                     (fs !! Wifi.filename str_float location latrange1 longrange1 now)
                   ++ l]> fs)
  /\
  (forall (float : Type) (str_float : float -> string) (fs : gmap string file)
          (body : json) (rs : list pd.record) (rest : list outcome)
          (latrange1 latrange2 longrange1 longrange2 : float)
          (location : string) (max_retries retry_delay : nat),
      0 < max_retries ->
      results body = Some rs ->
      (Wigle.send_request str_float fs (Response 200 (Some body) :: rest)
         latrange1 latrange2 longrange1 longrange2 location
         max_retries retry_delay).2
      = <[Wigle.filename str_float location latrange1 longrange1
          := pd.to_csv (pd.DataFrame_of rs) true]> fs).
Proof.
  split; [|split; [|split]].
  - intros float str_float lat1 lon1 location api_endpoint t t' Hv Hv'.
    unfold Bluetooth.filename, BluetoothCellularWiFi.filename, Wifi.filename.
    split; [|split];
      (split; intros H;
       [repeat (apply (inj (String.app _)) in H);
        exact (strftime_same_second t t' _ _ Hv Hv' H)
       |now rewrite (same_second_strftime t t' H)]).
  - intros float str_float now fs fs' server lat1 lat2 lon1 lon2 r.
    unfold Bluetooth.send_request. intros [= <- <-].
    rewrite finish_file.
    destruct (loop_file server
                (Bluetooth.init
                   (default [] (fs !! Bluetooth.filename str_float lat1 lon1 now))))
      as [l Hl].
    exists l. now rewrite Hl.
  - intros float str_float now fs fs' server lat1 lat2 lon1 lon2 location
      request_delay max_retries r.
    unfold Wifi.send_request.
    destruct (Wifi.loop request_delay max_retries server Wifi.init)
      as [why st|why st|st]; try (intros [= <- <-]; now left).
    unfold Wifi.save.
    destruct (Wifi.is_empty (Wifi.total_results st)); intros [= <- <-];
      [now left|right; eauto].
  - intros float str_float fs body rs rest lat1 lat2 lon1 lon2 location
      max_retries retry_delay Hpos Hrs.
    unfold Wigle.send_request.
    rewrite (wigle_loop_page _ _ _ body rs) by (simpl; assumption).
    reflexivity.
Qed.

(** Two clock readings one second apart, and the sessions of the
    examples. *)
Lemma C9_file_names_witness :
  ((Bluetooth.filename Ex.str "47.2" "-122.5" Ex.now
    = Bluetooth.filename Ex.str "47.2" "-122.5" Ex.later
    <-> same_second Ex.now Ex.later)
   /\ (BluetoothCellularWiFi.filename "cell/search" Ex.now
       = BluetoothCellularWiFi.filename "cell/search" Ex.later
       <-> same_second Ex.now Ex.later)
   /\ (Wifi.filename Ex.str "tacoma" "47.2" "-122.5" Ex.now
       = Wifi.filename Ex.str "tacoma" "47.2" "-122.5" Ex.later
       <-> same_second Ex.now Ex.later))
  /\
  (exists l,
      Ex.bluetooth_waiting.2
      = <[Bluetooth.filename Ex.str "47.2" "-122.5" Ex.now
          := default []
               ((∅ : gmap string file)
                  !! Bluetooth.filename Ex.str "47.2" "-122.5" Ex.now)
             ++ l]> ∅)
  /\
  (Ex.wifi_waiting.2 = ∅ \/
   exists l,
     Ex.wifi_waiting.2
     = <[Wifi.filename Ex.str "tacoma" "47.2" "-122.5" Ex.now
         := default []
              ((∅ : gmap string file)
                 !! Wifi.filename Ex.str "tacoma" "47.2" "-122.5" Ex.now)
            ++ l]> ∅)
  /\
  Ex.wigle_second.2
  = <[Wigle.filename Ex.str "tacoma" "47.2" "-122.5"
      := pd.to_csv (pd.DataFrame_of [Ex.obs "b"]) true]> Ex.wigle_first.2.
Proof.
  split; [|split; [|split]].
  - apply (proj1 C9_file_names string Ex.str "47.2" "-122.5" "tacoma"
             "cell/search" Ex.now Ex.later);
      unfold Py.valid; simpl; lia.
  - apply (proj1 (proj2 C9_file_names) string Ex.str Ex.now ∅
             Ex.bluetooth_waiting.2 Ex.first_page "47.2" "47.3" "-122.5" "-122.4"
             Ex.bluetooth_waiting.1).
    apply surjective_pairing.
  - apply (proj1 (proj2 (proj2 C9_file_names)) string Ex.str Ex.now ∅
             Ex.wifi_waiting.2 Ex.first_page "47.2" "47.3" "-122.5" "-122.4"
             "tacoma" 5 3 Ex.wifi_waiting.1).
    apply surjective_pairing.
  - apply (proj2 (proj2 (proj2 C9_file_names)) string Ex.str Ex.wigle_first.2
             {| results := Some [Ex.obs "b"]; totalResults := Some 1%Z |}
             [Ex.obs "b"] [] "47.2" "47.3" "-122.5" "-122.4" "tacoma" 3 60).
    + lia.
    + reflexivity.
Defined.

(** *** C8: what is written and what is read back *)

(** Strings and their reversal. *)

Lemma append_nil_r (s : string) : s +:+ EmptyString = s.
Proof.
  induction s as [|c s IH]; [reflexivity|].
  change (String c s +:+ EmptyString) with (String c (s +:+ EmptyString)).
  now rewrite IH.
Qed.

Lemma append_assoc (s1 s2 s3 : string) :
  (s1 +:+ s2) +:+ s3 = s1 +:+ (s2 +:+ s3).
Proof.
  induction s1 as [|c s1 IH]; [reflexivity|].
  change (String c s1 +:+ s2) with (String c (s1 +:+ s2)).
  change (String c (s1 +:+ s2) +:+ s3) with (String c ((s1 +:+ s2) +:+ s3)).
  change (String c s1 +:+ (s2 +:+ s3)) with (String c (s1 +:+ (s2 +:+ s3))).
  now rewrite IH.
Qed.

Lemma rev_app_rev_app (s t u : string) :
  String.rev_app (String.rev_app s t) u = String.rev_app t (s +:+ u).
Proof.
  revert t u. induction s as [|c s IH]; intros t u; [reflexivity|].
  simpl. rewrite IH. reflexivity.
Qed.

Lemma rev_rev_app (s : string) :
  String.rev (String.rev_app s EmptyString) = s.
Proof.
  unfold String.rev. rewrite rev_app_rev_app. simpl. apply append_nil_r.
Qed.

(** *** The parser on what the writer wrote *)

Lemma parse_line_feed (r : csv.ReaderObj) (s : string) :
  csv.parse_line r s
  = match feed r s with
    | Some r' => csv.parse_process_char r' None
    | None => None
    end.
Proof.
  revert r. induction s as [|c s IH]; intros r; simpl; [reflexivity|].
  destruct (csv.parse_process_char r (Some c)); [apply IH|reflexivity].
Qed.

Lemma feed_app (r : csv.ReaderObj) (s1 s2 : string) :
  feed r (s1 +:+ s2)
  = match feed r s1 with Some r' => feed r' s2 | None => None end.
Proof.
  revert r. induction s1 as [|c s1 IH]; intros r; [reflexivity|].
  change (String c s1 +:+ s2) with (String c (s1 +:+ s2)). simpl.
  destruct (csv.parse_process_char r (Some c)); [apply IH|reflexivity].
Qed.

(** What the writer copies for a plain field. *)
Lemma join_append_data_plain (s : string) :
  plain s = true ->
  csv.join_append_data backslash s = (doubled s, needs_quote s).
Proof.
  induction s as [|c s IH]; [reflexivity|]. simpl.
  intros [Hc Hs]%andb_true_iff. rewrite (IH Hs).
  unfold plain_char in Hc. apply negb_true_iff in Hc.
  apply orb_false_iff in Hc as [[Hb Hlf]%orb_false_iff Hcr].
  rewrite Hb, Hlf.
  destruct (csv.eqc c csv.quotechar) eqn:Hq.
  - apply Ascii.eqb_eq in Hq. subst c. reflexivity.
  - destruct (csv.eqc c csv.delimiter); reflexivity.
Qed.

(** Inside the quotes. *)
Lemma feed_quoted (s b : string) (fl : list string) :
  feed {| csv.state := csv.IN_QUOTED_FIELD; csv.field := b; csv.fields := fl |}
    (doubled s)
  = Some {| csv.state := csv.IN_QUOTED_FIELD;
            csv.field := String.rev_app s b; csv.fields := fl |}.
Proof.
  revert b. induction s as [|c s IH]; intros b; [reflexivity|].
  simpl. destruct (csv.eqc c csv.quotechar) eqn:Hq.
  - apply Ascii.eqb_eq in Hq. subst c. simpl. apply IH.
  - simpl. unfold csv.parse_process_char. simpl. rewrite Hq. apply IH.
Qed.

(** Outside quotes. *)
Lemma feed_unquoted (s b : string) (fl : list string) :
  plain s = true -> needs_quote s = false ->
  feed {| csv.state := csv.IN_FIELD; csv.field := b; csv.fields := fl |} s
  = Some {| csv.state := csv.IN_FIELD;
            csv.field := String.rev_app s b; csv.fields := fl |}.
Proof.
  revert b. induction s as [|c s IH]; intros b; [reflexivity|].
  simpl. intros [Hc Hs]%andb_true_iff [[Hd Hq]%orb_false_iff Hn]%orb_false_iff.
  unfold plain_char in Hc. apply negb_true_iff in Hc.
  apply orb_false_iff in Hc as [[Hb Hlf]%orb_false_iff Hcr].
  unfold csv.parse_process_char. simpl. unfold csv.is_crnl.
  rewrite Hlf, Hcr, Hd. simpl. now apply IH.
Qed.

Lemma doubled_unquoted (s : string) : needs_quote s = false -> doubled s = s.
Proof.
  induction s as [|c s IH]; [reflexivity|]. simpl.
  intros [[Hd Hq]%orb_false_iff Hn]%orb_false_iff. rewrite Hq, (IH Hn).
  reflexivity.
Qed.

(** A written field and the character that ends it, read at the start of
    a field.  [after c] is the state that the end character leaves. *)
Lemma feed_field (st0 : csv.ParserState) (fl : list string) (s : string)
    (c : ascii) (rest : string) :
  plain s = true ->
  st0 = csv.START_RECORD \/ st0 = csv.START_FIELD ->
  c = csv.delimiter \/ c = csv.LF ->
  ~ (st0 = csv.START_RECORD /\ s = EmptyString /\ c = csv.LF) ->
  feed (between st0 fl) (csv.join_append backslash s +:+ String c rest)
  = feed (between (if csv.eqc c csv.delimiter then csv.START_FIELD
                   else csv.EAT_CRNL) (s :: fl)) rest.
Proof.
  intros Hp Hst Hc Hnot.
  unfold csv.join_append. rewrite (join_append_data_plain s Hp).
  destruct (needs_quote s) eqn:Hn.
  - change (String csv.quotechar (doubled s +:+ String csv.quotechar EmptyString)
            +:+ String c rest)
      with (String csv.quotechar
              ((doubled s +:+ String csv.quotechar EmptyString) +:+ String c rest)).
    rewrite append_assoc.
    assert (H1 : feed (between st0 fl)
                   (String csv.quotechar
                      (doubled s +:+ String csv.quotechar EmptyString
                       +:+ String c rest))
                 = feed {| csv.state := csv.IN_QUOTED_FIELD;
                           csv.field := EmptyString; csv.fields := fl |}
                     (doubled s +:+ String csv.quotechar EmptyString
                      +:+ String c rest))
      by (destruct Hst as [-> | ->]; reflexivity).
    rewrite H1, feed_app, feed_quoted.
    change (String csv.quotechar EmptyString +:+ String c rest)
      with (String csv.quotechar (String c rest)).
    destruct Hc as [-> | ->]; simpl; unfold between, csv.parse_save_field;
      simpl; rewrite rev_rev_app; reflexivity.
  - rewrite (doubled_unquoted s Hn).
    destruct s as [|c' s'].
    + change (EmptyString +:+ String c rest) with (String c rest).
      destruct Hc as [-> | ->].
      * destruct Hst as [-> | ->]; reflexivity.
      * destruct Hst as [-> | ->]; [|reflexivity].
        exfalso. apply Hnot. repeat split.
    + change (String c' s' +:+ String c rest)
        with (String c' (s' +:+ String c rest)).
      simpl in Hp, Hn.
      apply andb_true_iff in Hp as [Hc' Hs'].
      apply orb_false_iff in Hn as [[Hd Hq]%orb_false_iff Hn'].
      unfold plain_char in Hc'. apply negb_true_iff in Hc'.
      apply orb_false_iff in Hc' as [[Hb Hlf]%orb_false_iff Hcr].
      assert (H1 : feed (between st0 fl) (String c' (s' +:+ String c rest))
                   = feed {| csv.state := csv.IN_FIELD;
                             csv.field := String c' EmptyString;
                             csv.fields := fl |}
                       (s' +:+ String c rest)).
      { destruct Hst as [-> | ->]; simpl; unfold csv.parse_process_char;
          simpl; unfold csv.start_field, csv.is_crnl;
          rewrite ?Hlf, ?Hcr, ?Hq, ?Hd; reflexivity. }
      rewrite H1, feed_app, (feed_unquoted s' _ fl Hs' Hn').
      assert (Hrev : String.rev (String.rev_app s' (String c' EmptyString))
                     = String c' s')
        by (apply (rev_rev_app (String c' s'))).
      destruct Hc as [-> | ->]; simpl; unfold between, csv.parse_save_field;
        simpl; rewrite Hrev; reflexivity.
Qed.

(** The fields of a record after its first one. *)
Lemma feed_fields (xs : list string) (x : string) (fl : list string) :
  forallb plain (x :: xs) = true ->
  feed (between csv.START_FIELD fl)
    (csv.join_fields backslash (x :: xs) +:+ csv.lineterminator)
  = Some (between csv.EAT_CRNL (rev (x :: xs) ++ fl)).
Proof.
  revert x fl. induction xs as [|y ys IH]; intros x fl Hall.
  - simpl in Hall. apply andb_true_iff in Hall as [Hx _].
    cbn [csv.join_fields]. unfold csv.lineterminator.
    rewrite feed_field;
      [ | assumption | now right | now right | intros (? & _); discriminate ].
    simpl. f_equal.
  - cbn [forallb] in Hall. apply andb_true_iff in Hall as [Hx Hall].
    change (csv.join_fields backslash (x :: y :: ys))
      with (csv.join_append backslash x
            +:+ String csv.delimiter (csv.join_fields backslash (y :: ys))).
    rewrite append_assoc.
    change (String csv.delimiter (csv.join_fields backslash (y :: ys))
            +:+ csv.lineterminator)
      with (String csv.delimiter
              (csv.join_fields backslash (y :: ys) +:+ csv.lineterminator)).
    rewrite feed_field;
      [ | assumption | now right | now left | intros (? & _); discriminate ].
    simpl (csv.eqc _ _). cbv iota. rewrite (IH y (x :: fl) Hall).
    f_equal. f_equal. simpl. now rewrite <- !app_assoc.
Qed.

Lemma join_append_empty (x : string) :
  plain x = true ->
  String.length (csv.join_append backslash x) = 0 -> x = EmptyString.
Proof.
  intros Hp. unfold csv.join_append. rewrite (join_append_data_plain x Hp).
  destruct (needs_quote x) eqn:Hn; [discriminate|].
  rewrite (doubled_unquoted x Hn). destruct x; [reflexivity|discriminate].
Qed.

(** One written record is read as that record. *)
Lemma parse_row (row : list string) :
  forallb plain row = true ->
  csv.parse_line csv.parse_reset (csv.writerow backslash row)
  = Some (between csv.START_RECORD (rev row)).
Proof.
  intros Hall. destruct row as [|x [|y ys]].
  - reflexivity.
  - simpl in Hall. apply andb_true_iff in Hall as [Hx _].
    unfold csv.writerow. cbn [length Nat.ltb Nat.leb andb csv.join_fields].
    destruct (String.length (csv.join_append backslash x) =? 0) eqn:Hlen.
    + apply Nat.eqb_eq in Hlen. apply (join_append_empty x Hx) in Hlen.
      subst x. reflexivity.
    + rewrite parse_line_feed. unfold csv.lineterminator.
      change csv.parse_reset with (between csv.START_RECORD []).
      rewrite feed_field;
        [reflexivity | assumption | now left | now right
        | intros (_ & -> & _); discriminate Hlen].
  - unfold csv.writerow.
    assert (Hlen : (String.length (csv.join_fields backslash (x :: y :: ys)) =? 0)
                   = false).
    { apply Nat.eqb_neq.
      change (csv.join_fields backslash (x :: y :: ys))
        with (csv.join_append backslash x
              +:+ String csv.delimiter (csv.join_fields backslash (y :: ys))).
      rewrite string_length_app. simpl. lia. }
    rewrite Hlen, andb_false_r.
    cbn [forallb] in Hall. apply andb_true_iff in Hall as [Hx Hall].
    rewrite parse_line_feed.
    change (csv.join_fields backslash (x :: y :: ys))
      with (csv.join_append backslash x
            +:+ String csv.delimiter (csv.join_fields backslash (y :: ys))).
    rewrite append_assoc.
    change (String csv.delimiter (csv.join_fields backslash (y :: ys))
            +:+ csv.lineterminator)
      with (String csv.delimiter
              (csv.join_fields backslash (y :: ys) +:+ csv.lineterminator)).
    change csv.parse_reset with (between csv.START_RECORD []).
    rewrite feed_field;
      [ | assumption | now left | now left | intros (_ & _ & ?); discriminate ].
    simpl (csv.eqc _ _). cbv iota. rewrite (feed_fields ys y [x] Hall).
    simpl. unfold between. now rewrite <- ?app_assoc.
Qed.

(** *** The lines of a written file *)

Lemma one_line_app (s1 s2 : string) :
  one_line (s1 +:+ s2) = one_line s1 && one_line s2.
Proof.
  induction s1 as [|c s1 IH]; [reflexivity|].
  change (String c s1 +:+ s2) with (String c (s1 +:+ s2)). simpl.
  now rewrite IH, andb_assoc.
Qed.

Lemma plain_one_line (s : string) : plain s = true -> one_line s = true.
Proof.
  induction s as [|c s IH]; [reflexivity|]. simpl.
  intros [Hc Hs]%andb_true_iff. rewrite (IH Hs), andb_true_r.
  unfold plain_char in Hc. apply negb_true_iff in Hc.
  apply orb_false_iff in Hc as [[Hb Hlf]%orb_false_iff Hcr].
  unfold csv.is_crnl. now rewrite Hlf, Hcr.
Qed.

Lemma doubled_one_line (s : string) : one_line s = true -> one_line (doubled s) = true.
Proof.
  induction s as [|c s IH]; [reflexivity|]. simpl.
  intros [Hc Hs]%andb_true_iff.
  destruct (csv.eqc c csv.quotechar); simpl; rewrite (IH Hs), ?Hc; reflexivity.
Qed.

Lemma join_append_one_line (x : string) :
  plain x = true -> one_line (csv.join_append backslash x) = true.
Proof.
  intros Hp. unfold csv.join_append. rewrite (join_append_data_plain x Hp).
  pose proof (doubled_one_line x (plain_one_line x Hp)) as Hd.
  destruct (needs_quote x); [|exact Hd].
  cbn [one_line]. rewrite one_line_app, Hd. reflexivity.
Qed.

Lemma join_fields_one_line (row : list string) :
  forallb plain row = true -> one_line (csv.join_fields backslash row) = true.
Proof.
  induction row as [|x [|y ys] IH]; [reflexivity| |].
  - simpl. rewrite andb_true_r. apply join_append_one_line.
  - cbn [forallb]. intros [Hx Hall]%andb_true_iff.
    change (csv.join_fields backslash (x :: y :: ys))
      with (csv.join_append backslash x
            +:+ String csv.delimiter (csv.join_fields backslash (y :: ys))).
    rewrite one_line_app, (join_append_one_line x Hx). cbn [one_line andb].
    rewrite (IH Hall). reflexivity.
Qed.

(** A written record is one line and its line feed. *)
Lemma writerow_one_line (row : list string) :
  forallb plain row = true ->
  exists body, csv.writerow backslash row = body +:+ csv.lineterminator
               /\ one_line body = true.
Proof.
  intros Hall. unfold csv.writerow.
  destruct ((0 <? length row) && _); eexists; split; try reflexivity.
  now apply join_fields_one_line.
Qed.

Lemma universal_newlines_one_line (body rest : string) :
  one_line body = true ->
  csv.universal_newlines (body +:+ String csv.LF rest)
  = body +:+ String csv.LF (csv.universal_newlines rest).
Proof.
  induction body as [|c body IH]; [reflexivity|]. simpl.
  intros [Hc Hb]%andb_true_iff. apply negb_true_iff in Hc.
  unfold csv.is_crnl in Hc. apply orb_false_iff in Hc as [Hlf Hcr].
  change (String c body +:+ String csv.LF rest)
    with (String c (body +:+ String csv.LF rest)).
  cbn [csv.universal_newlines]. rewrite Hcr, (IH Hb). reflexivity.
Qed.

Lemma splitlines_one_line (body rest cur : string) :
  one_line body = true ->
  csv.splitlines_go cur (body +:+ String csv.LF rest)
  = String.rev_app cur (body +:+ String csv.LF EmptyString)
    :: csv.splitlines_go EmptyString rest.
Proof.
  revert cur. induction body as [|c body IH]; intros cur.
  - intros _. reflexivity.
  - simpl. intros [Hc Hb]%andb_true_iff. apply negb_true_iff in Hc.
    unfold csv.is_crnl in Hc. apply orb_false_iff in Hc as [Hlf Hcr].
    change (String c body +:+ String csv.LF rest)
      with (String c (body +:+ String csv.LF rest)).
    cbn [csv.splitlines_go]. rewrite Hlf, (IH _ Hb).
    reflexivity.
Qed.

Lemma render_cons (row : list string) (f : file) :
  render (row :: f) = csv.writerow backslash row +:+ render f.
Proof. reflexivity. Qed.

(** The lines read from a written file are its written records. *)
Lemma readlines_render (f : file) :
  forallb (forallb plain) f = true ->
  csv.readlines (render f) = map (csv.writerow backslash) f.
Proof.
  unfold csv.readlines. induction f as [|row f IH]; [reflexivity|].
  cbn [forallb]. intros [Hrow Hf]%andb_true_iff.
  destruct (writerow_one_line row Hrow) as (body & Hbody & Hone).
  rewrite render_cons. cbn [map]. rewrite Hbody. unfold csv.lineterminator.
  rewrite append_assoc.
  change (String csv.LF EmptyString +:+ render f)
    with (String csv.LF (render f)).
  rewrite (universal_newlines_one_line _ _ Hone).
  rewrite (splitlines_one_line _ _ _ Hone). rewrite (IH Hf). reflexivity.
Qed.

(** The reader gives back the records of a written file whose fields hold
    no escape character and no line ending. *)
Lemma reader_render (f : file) :
  forallb (forallb plain) f = true ->
  csv.reader (csv.readlines (render f)) = Some f.
Proof.
  intros Hall. rewrite (readlines_render f Hall). unfold csv.reader.
  induction f as [|row f IH]; [reflexivity|].
  cbn [forallb] in Hall. apply andb_true_iff in Hall as [Hrow Hf].
  cbn [map csv.reader_go]. rewrite (parse_row row Hrow).
  cbn [csv.at_start_record between csv.state csv.fields].
  rewrite (IH Hf), rev_involutive. reflexivity.
Qed.

(** *** Records read back *)

Lemma dictreader_render (header : list string) (rows : list (list string)) :
  forallb (forallb plain) (header :: rows) = true ->
  csv.DictReader (csv.readlines (render (header :: rows)))
  = Some (map (csv.zip_row header)
            (filter (fun row => csv.is_empty_row row = false) rows)).
Proof.
  intros Hall. unfold csv.DictReader. now rewrite (reader_render _ Hall).
Qed.

Lemma zip_row_lookup (cols : list string) (g : string -> string) (k : string) :
  k ∈ cols -> csv.zip_row cols (map g cols) !! k = Some (Some (g k)).
Proof.
  induction cols as [|c cs IH]; [intros H; inversion H|].
  intros Hin. cbn [map csv.zip_row].
  destruct (decide (c = k)) as [->|Hne].
  - apply lookup_insert_eq.
  - rewrite lookup_insert_ne by assumption. apply IH.
    apply elem_of_cons in Hin as [->|Hin]; [contradiction|assumption].
Qed.

Lemma get_plain (r : pd.record) (k v : string) :
  plain_record r = true -> pd.get r k = Some v -> plain v = true.
Proof.
  induction r as [|[k' v'] r IH]; [discriminate|].
  unfold plain_record. cbn [forallb pd.get fst snd].
  intros [[_ Hv]%andb_true_iff Hr]%andb_true_iff.
  destruct (bool_decide (k = k')); [intros [= <-]; exact Hv|now apply IH].
Qed.

Lemma cell_plain (r : pd.record) (k : string) :
  plain_record r = true -> plain (pd.cell r k) = true.
Proof.
  intros Hr. unfold pd.cell. destruct (pd.get r k) eqn:Hg; [|reflexivity].
  exact (get_plain r k _ Hr Hg).
Qed.

Lemma forallb_snoc {A} (p : A -> bool) (l : list A) (x : A) :
  forallb p (l ++ [x]) = forallb p l && p x.
Proof. rewrite forallb_app. simpl. now rewrite andb_true_r. Qed.

Lemma add_keys_plain (keys cols : list string) :
  forallb plain cols = true -> forallb plain keys = true ->
  forallb plain (pd.add_keys cols keys) = true.
Proof.
  revert cols. induction keys as [|k keys IH]; intros cols Hc; [trivial|].
  cbn [forallb pd.add_keys]. intros [Hk Hks]%andb_true_iff.
  destruct (pd.known cols k); apply IH; try assumption.
  now rewrite forallb_snoc, Hc, Hk.
Qed.

Lemma keys_plain (r : pd.record) :
  plain_record r = true -> forallb plain (map fst r) = true.
Proof.
  induction r as [|[k v] r IH]; [reflexivity|].
  unfold plain_record. cbn [forallb map fst snd].
  intros [[Hk _]%andb_true_iff Hr]%andb_true_iff. now rewrite Hk, (IH Hr).
Qed.

Lemma columns_plain (results : list pd.record) (cols : list string) :
  forallb plain cols = true ->
  forallb plain_record results = true ->
  forallb plain
    (foldl (fun cols r => pd.add_keys cols (map fst r)) cols results) = true.
Proof.
  revert cols. induction results as [|r rs IH]; intros cols Hc; [trivial|].
  cbn [forallb foldl]. intros [Hr Hrs]%andb_true_iff.
  apply IH; [|assumption]. apply add_keys_plain; [assumption|].
  now apply keys_plain.
Qed.

Lemma cells_plain (r : pd.record) (cols : list string) :
  plain_record r = true -> forallb plain (map (pd.cell r) cols) = true.
Proof.
  intros Hr. induction cols as [|c cs IH]; [reflexivity|].
  cbn [forallb map]. now rewrite (cell_plain r c Hr), IH.
Qed.

Lemma values_plain (results : list pd.record) (cols : list string) :
  forallb plain_record results = true ->
  forallb (forallb plain) (map (fun r => map (pd.cell r) cols) results) = true.
Proof.
  induction results as [|r rs IH]; [reflexivity|].
  cbn [forallb map]. intros [Hr Hrs]%andb_true_iff.
  now rewrite (IH Hrs), (cells_plain r cols Hr).
Qed.

Lemma column_zip_rows (cols : list string) (results : list pd.record)
    (k : string) :
  k ∈ cols ->
  column k
    (map (csv.zip_row cols)
       (filter (fun row => csv.is_empty_row row = false)
          (map (fun r => map (pd.cell r) cols) results)))
  = map (fun r => Some (Some (pd.cell r k))) results.
Proof.
  intros Hk. unfold column.
  induction results as [|r rs IH]; [reflexivity|].
  cbn [map]. rewrite filter_cons.
  destruct (decide (csv.is_empty_row (map (pd.cell r) cols) = false)) as [_|Hbad].
  - cbn [map]. rewrite IH. f_equal. now apply zip_row_lookup.
  - exfalso. apply Hbad. destruct cols; [inversion Hk|reflexivity].
Qed.

(** One batch whose keys and values hold no escape character and no line
    ending, written by bluetooth.py to an empty file and read by the
    reader of Cellular-csvtokml.py: every value comes back, under its
    key, unchanged (a key that a record lacks comes back empty). *)
Lemma plain_batch_read_back (results : list pd.record) (k : string) :
  forallb plain_record results = true ->
  k ∈ header_row results ->
  column k <$> CellularCsvToKml.read_rows
                 (render (Bluetooth.f
                            (Bluetooth.write results (Bluetooth.init []))))
  = Some (map (fun r => Some (Some (pd.cell r k))) results).
Proof.
  intros Hall Hk.
  change (Bluetooth.f (Bluetooth.write results (Bluetooth.init [])))
    with (header_row results
          :: map (fun r => map (pd.cell r) (header_row results)) results).
  unfold CellularCsvToKml.read_rows. rewrite dictreader_render.
  - cbn [fmap option_fmap option_map]. f_equal.
    now apply column_zip_rows.
  - cbn [forallb]. apply andb_true_iff. split.
    + unfold header_row, pd.DataFrame_of. cbn [pd.columns].
      now apply columns_plain.
    + now apply values_plain.
Qed.

(** C8: evaluation at the failing input.  An observation whose [id] is
    a, backslash, b is written by bluetooth.py to an empty file: the
    backslash is written twice, and the reader of Cellular-csvtokml.py,
    which has no escape character, gives back an [id] with two
    backslashes and not the value that was written.  A comma, in
    contrast, comes back. *)
Theorem C8_backslash_comes_back_doubled :
  column "id" <$> CellularCsvToKml.read_rows (render Ex.sink_with_backslash)
  = Some [Some (Some Ex.a_2backslash_b)]
  /\ Ex.a_2backslash_b <> Ex.a_backslash_b
  /\ column "id"
       <$> CellularCsvToKml.read_rows
             (render (Bluetooth.f
                        (Bluetooth.write [Ex.obs "a,b"] (Bluetooth.init []))))
     = Some [Some (Some "a,b")].
Proof.
  split; [|split].
  - vm_compute. reflexivity.
  - discriminate.
  - apply (plain_batch_read_back [Ex.obs "a,b"] "id"); [reflexivity|].
    vm_compute. set_solver.
Qed.
